(** * ask-me-anything: the live-update fan-out core and its wire format

  A shallow embedding of [internal/schema] and [internal/api]:
  - [Json]: the part of Go's [encoding/json] the handlers rely on
    (struct tags, field order, compact text);
  - [schema]: the structs of [message.go] and [room.go] with their tags;
  - [api]: the subscriber registry, [notifyClients], [handleSubscribe]
    and the request handlers, as state-passing programs that record the
    effects they perform (lock operations, socket writes, log lines,
    cancellations, spawned goroutines, HTTP responses). *)

From Stdlib Require Import ZArith Ascii String.
From stdpp Require Import base option list gmap strings pretty.

Set Warnings "-register-all,-clear-no-such-hyp".

Local Open Scope string_scope.
Local Open Scope Z_scope.
Local Open Scope list_scope.

(** ** encoding/json *)

Module Json.

Inductive value : Type :=
| Null
| Bool (b : bool)
| Number (z : Z)
| Str (s : string)
| Array (vs : list value)
| Object (members : list (string * value)).

(** The quotation mark, byte 34. *)
Definition quote : string := String (ascii_of_nat 34) EmptyString.

Definition hex : string := "0123456789abcdef".

Definition hex_digit (n : nat) : string :=
  match String.get n hex with
  | Some c => String c EmptyString
  | None => EmptyString
  end.

(** One byte of a string literal. [html] is the encoder's HTML escaping:
    on for [json.NewEncoder] as [WriteJSON] uses it, off in gin's
    [PureJSON]. Backspace and form feed have their short forms, as from
    Go 1.22 on. *)
Definition escape_byte (html : bool) (c : ascii) : string :=
  let n := nat_of_ascii c in
  if (n =? 34)%nat then "\" +:+ quote
  else if (n =? 92)%nat then "\\"
  else if (n =? 8)%nat then "\b"
  else if (n =? 12)%nat then "\f"
  else if (n =? 10)%nat then "\n"
  else if (n =? 13)%nat then "\r"
  else if (n =? 9)%nat then "\t"
  else if (n <? 32)%nat || (html && ((n =? 60) || (n =? 62) || (n =? 38)))%nat
       then "\u00" +:+ hex_digit (n / 16) +:+ hex_digit (n mod 16)
  else String c EmptyString.

(** A whole string. Strings are UTF-8; the two line separators U+2028 and
    U+2029 (bytes E2 80 A8 and E2 80 A9) are always written escaped. The
    strings that reach the encoder here come from [uuid.String] and from
    decoded JSON bodies, so they are valid UTF-8 and the replacement of
    invalid bytes does not arise. *)
Fixpoint escape (html : bool) (s : string) : string :=
  match s with
  | EmptyString => EmptyString
  | String c s1 =>
      match s1 with
      | String c2 (String c3 s3) =>
          if ((nat_of_ascii c =? 226) && (nat_of_ascii c2 =? 128)
              && ((nat_of_ascii c3 =? 168) || (nat_of_ascii c3 =? 169)))%nat
          then "\u202" +:+ hex_digit (nat_of_ascii c3 mod 16) +:+ escape html s3
          else escape_byte html c +:+ escape html s1
      | _ => escape_byte html c +:+ escape html s1
      end
  end.

Fixpoint join (sep : string) (l : list string) : string :=
  match l with
  | [] => EmptyString
  | [x] => x
  | x :: l' => x +:+ sep +:+ join sep l'
  end.

(** Compact JSON text of a value: members in the order given, no
    whitespace. *)
Fixpoint marshal (html : bool) (v : value) : string :=
  match v with
  | Null => "null"
  | Bool true => "true"
  | Bool false => "false"
  | Number z => pretty z
  | Str s => quote +:+ escape html s +:+ quote
  | Array vs => "[" +:+ join "," (List.map (marshal html) vs) +:+ "]"
  | Object ms =>
      "{" +:+ join "," (List.map (fun kv => quote +:+ escape html (fst kv) +:+ quote
                                          +:+ ":" +:+ marshal html (snd kv)) ms)
          +:+ "}"
  end.

(** The names of an object's members, in order. *)
Definition keys (v : value) : list string :=
  match v with
  | Object ms => List.map fst ms
  | _ => []
  end.

Definition member (k : string) (v : value) : option value :=
  match v with
  | Object ms => snd <$> List.find (fun kv => String.eqb (fst kv) k) ms
  | _ => None
  end.

(** *** Struct encoding

    A struct value is encoded from its exported fields in declaration
    order. A field's member name is the name given in its [json:"..."]
    tag; a field with no tag keeps its Go name; the tag [json:"-"] leaves
    the field out. *)

Inductive Tag : Type :=
| NoTag
| JsonTag (name : string).

Record Field : Type := mkField
  { go_name : string;
    tag : Tag;
    field_value : value }.

Definition member_name (f : Field) : option string :=
  match tag f with
  | NoTag => Some (go_name f)
  | JsonTag name =>
      if String.eqb name "-" then None
      else if String.eqb name EmptyString then Some (go_name f)
      else Some name
  end.

Definition encode_field (f : Field) : list (string * value) :=
  match member_name f with
  | Some k => [(k, field_value f)]
  | None => []
  end.

Definition encode_struct (fs : list Field) : value :=
  Object (List.concat (List.map encode_field fs)).

(** What [json.Marshal] needs of a Go type. *)
Class Marshaler (T : Type) := to_json : T -> value.

#[global] Instance string_marshaler : Marshaler string := Str.
#[global] Instance int64_marshaler : Marshaler Z := Number.
#[global] Instance bool_marshaler : Marshaler bool := Bool.

(** A slice that is not nil is encoded as an array. *)
#[global] Instance slice_marshaler {T} `{Marshaler T} : Marshaler (list T) :=
  fun l => Array (List.map to_json l).

(** An interface value already in JSON form; [nil] is [Null]. *)
#[global] Instance value_marshaler : Marshaler value := fun v => v.

(** Expected JSON text is written with apostrophes standing for
    quotation marks; [text] puts the quotation marks back. *)
Fixpoint text (s : string) : string :=
  match s with
  | EmptyString => EmptyString
  | String c s' =>
      String (if (nat_of_ascii c =? 39)%nat then ascii_of_nat 34 else c) (text s')
  end.

End Json.


(** ** internal/schema *)

Module schema.
Import Json.

(** Go's [any]: a value together with its dynamic type, of which the
    encoder needs the JSON encoding. *)
Record any : Type := Any
  { any_type : Type;
    any_marshaler : Marshaler any_type;
    any_value : any_type }.
Arguments Any {any_type any_marshaler} any_value.

#[global] Instance any_to_json : Marshaler any :=
  fun v => @to_json (any_type v) (any_marshaler v) (any_value v).

(** *** message.go *)

Module Message.
Record t : Type := mk
  { Kind : string;     (* `json:"kind"` *)
    Value : any;       (* `json:"value"` *)
    RoomID : string }. (* `json:"-"` *)
Definition fields (m : t) : list Field :=
  [ mkField "Kind" (JsonTag "kind") (to_json (Kind m));
    mkField "Value" (JsonTag "value") (to_json (Value m));
    mkField "RoomID" (JsonTag "-") (to_json (RoomID m)) ].
End Message.
#[global] Instance Message_to_json : Marshaler Message.t :=
  fun m => encode_struct (Message.fields m).

Module CreateMessageInput.
Record t : Type := mk
  { Message : string }. (* `json:"message" binding:"required"` *)
End CreateMessageInput.

Module CreateMessageOutput.
Record t : Type := mk
  { ID : string }. (* `json:"id"` *)
Definition fields (o : t) : list Field :=
  [ mkField "ID" (JsonTag "id") (to_json (ID o)) ].
End CreateMessageOutput.
#[global] Instance CreateMessageOutput_to_json : Marshaler CreateMessageOutput.t :=
  fun o => encode_struct (CreateMessageOutput.fields o).

Module MessageCreatedEvent.
Record t : Type := mk
  { ID : string;
    Message : string }.
Definition fields (e : t) : list Field :=
  [ mkField "ID" NoTag (to_json (ID e));
    mkField "Message" NoTag (to_json (Message e)) ].
End MessageCreatedEvent.
#[global] Instance MessageCreatedEvent_to_json : Marshaler MessageCreatedEvent.t :=
  fun e => encode_struct (MessageCreatedEvent.fields e).

Module MessageReactionCountChangedEvent.
Record t : Type := mk
  { ID : string;
    Count : Z }.
Definition fields (e : t) : list Field :=
  [ mkField "ID" NoTag (to_json (ID e));
    mkField "Count" NoTag (to_json (Count e)) ].
End MessageReactionCountChangedEvent.
#[global] Instance MessageReactionCountChangedEvent_to_json :
  Marshaler MessageReactionCountChangedEvent.t :=
  fun e => encode_struct (MessageReactionCountChangedEvent.fields e).

Module MessageAnsweredEvent.
Record t : Type := mk
  { ID : string }.
Definition fields (e : t) : list Field :=
  [ mkField "ID" NoTag (to_json (ID e)) ].
End MessageAnsweredEvent.
#[global] Instance MessageAnsweredEvent_to_json : Marshaler MessageAnsweredEvent.t :=
  fun e => encode_struct (MessageAnsweredEvent.fields e).

Module GetMessageOutput.
Record t : Type := mk
  { ID : string;          (* `json:"id"` *)
    Message : string;     (* `json:"theme"` *)
    ReactionCount : Z;    (* `json:"reaction_count"` *)
    Answered : bool }.    (* `json:"answered"` *)
Definition fields (o : t) : list Field :=
  [ mkField "ID" (JsonTag "id") (to_json (ID o));
    mkField "Message" (JsonTag "theme") (to_json (Message o));
    mkField "ReactionCount" (JsonTag "reaction_count") (to_json (ReactionCount o));
    mkField "Answered" (JsonTag "answered") (to_json (Answered o)) ].
End GetMessageOutput.
#[global] Instance GetMessageOutput_to_json : Marshaler GetMessageOutput.t :=
  fun o => encode_struct (GetMessageOutput.fields o).

Module GetMessageByIDInput.
Record t : Type := mk
  { RoomID : string;      (* `uri:"room_id" binding:"required,uuid"` *)
    MessageID : string }. (* `uri:"message_id" binding:"required,uuid"` *)
End GetMessageByIDInput.

Module ReactToMessageOutput.
Record t : Type := mk
  { Count : Z }. (* `json:"count"` *)
Definition fields (o : t) : list Field :=
  [ mkField "Count" (JsonTag "count") (to_json (Count o)) ].
End ReactToMessageOutput.
#[global] Instance ReactToMessageOutput_to_json : Marshaler ReactToMessageOutput.t :=
  fun o => encode_struct (ReactToMessageOutput.fields o).

(** *** room.go *)

Module GetRoomByIDInput.
Record t : Type := mk
  { RoomID : string }. (* `uri:"room_id" binding:"required,uuid"` *)
End GetRoomByIDInput.

Module CreateRoomInput.
Record t : Type := mk
  { Theme : string }. (* `json:"theme" binding:"required"` *)
End CreateRoomInput.

Module CreateRoomOutput.
Record t : Type := mk
  { ID : string }. (* `json:"id"` *)
Definition fields (o : t) : list Field :=
  [ mkField "ID" (JsonTag "id") (to_json (ID o)) ].
End CreateRoomOutput.
#[global] Instance CreateRoomOutput_to_json : Marshaler CreateRoomOutput.t :=
  fun o => encode_struct (CreateRoomOutput.fields o).

Module GetRoomsOutput.
Record t : Type := mk
  { ID : string;      (* `json:"id"` *)
    Theme : string }. (* `json:"theme"` *)
Definition fields (o : t) : list Field :=
  [ mkField "ID" (JsonTag "id") (to_json (ID o));
    mkField "Theme" (JsonTag "theme") (to_json (Theme o)) ].
End GetRoomsOutput.
#[global] Instance GetRoomsOutput_to_json : Marshaler GetRoomsOutput.t :=
  fun o => encode_struct (GetRoomsOutput.fields o).

End schema.


(** ** The collaborators of internal/api

    [internal/api] is written against packages that are not part of it:
    google/uuid, the generated query layer [pgstore], gin's request context,
    gorilla's upgrader, and the Go runtime. They are taken as an interface. *)

(** A Go [error] value; [pgx.ErrNoRows] is the one the handlers test for. *)
Inductive error : Type :=
| ErrNoRows
| ErrOther (msg : string).

Definition error_Error (err : error) : string :=
  match err with
  | ErrNoRows => "no rows in result set"
  | ErrOther msg => msg
  end.

(** [errors.Is(err, pgx.ErrNoRows)] *)
Definition is_ErrNoRows (err : error) : bool :=
  match err with
  | ErrNoRows => true
  | ErrOther _ => false
  end.

(** A Go result pair [(T, error)]. *)
Inductive Result (T : Type) : Type :=
| OK (v : T)
| Failed (err : error).
Arguments OK {T} v.
Arguments Failed {T} err.

Module pgstore.

(** The row type the message queries return, as the handlers read it. *)
Record Message (UUID : Type) : Type := mkMessage
  { ID : UUID;
    RoomID : UUID;
    Message_ : string;
    ReactionCount : Z;
    Answered : bool }.
Arguments mkMessage {UUID}.
Arguments ID {UUID}.
Arguments RoomID {UUID}.
Arguments Message_ {UUID}.
Arguments ReactionCount {UUID}.
Arguments Answered {UUID}.

Record InsertMessageParams (UUID : Type) : Type := mkInsertMessageParams
  { Params_RoomID : UUID;
    Params_Message : string }.
Arguments mkInsertMessageParams {UUID}.
Arguments Params_RoomID {UUID}.
Arguments Params_Message {UUID}.

End pgstore.

Class Env : Type :=
  { (* google/uuid *)
    UUID : Type;
    MustParse : string -> option UUID;   (* [None]: the call panics *)
    UUID_String : UUID -> string;
    (* pgstore.Queries, over the state of the database *)
    Store : Type;
    Room : Type;
    GetRoom : UUID -> Store -> Result Room;
    GetMessage : UUID -> Store -> Result (pgstore.Message UUID);
    GetRoomMessages : UUID -> Store -> Result (list (pgstore.Message UUID));
    InsertMessage : pgstore.InsertMessageParams UUID -> Store -> Result UUID * Store;
    ReactToMessage : UUID -> Store -> Result Z * Store;
    RemoveReactionFromMessage : UUID -> Store -> Result Z * Store;
    MarkMessageAsAnswered : UUID -> Store -> option error * Store;
    (* gin.Context *)
    gin_Context : Type;
    ShouldBindUri_GetRoomByIDInput : gin_Context -> Result schema.GetRoomByIDInput.t;
    ShouldBindUri_GetMessageByIDInput : gin_Context -> Result schema.GetMessageByIDInput.t;
    ShouldBindJSON_CreateMessageInput : gin_Context -> Result schema.CreateMessageInput.t;
    ClientIP : gin_Context -> string;
    (* websocket.Upgrader.Upgrade: a new connection, or nil and an error *)
    Upgrade : gin_Context -> Result positive;
    (* context.WithCancel(c.Request.Context()): the new context *)
    WithCancel : gin_Context -> positive;
    (* the order in which a [range] loop visits a map: the runtime's choice *)
    range_order : gmap (option positive) positive -> list (option positive * positive);
    range_order_perm : forall m, range_order m ≡ₚ map_to_list m }.

(** What the room endpoints need besides: the fields of a room row, the
    two room queries that remain, and the binding of the create-room body. *)
Class RoomQueries `{Env} : Type :=
  { Room_ID : Room -> UUID;
    Room_Theme : Room -> string;
    GetRooms : Store -> Result (list Room);
    InsertRoom : string -> Store -> Result UUID * Store;
    ShouldBindJSON_CreateRoomInput : gin_Context -> Result schema.CreateRoomInput.t }.

(** ** internal/api *)

Module api.
Import Json schema.

Definition KindMessageCreated : string := "message_created".
Definition KindMessageReactionIncreased : string := "message_reaction_increased".
Definition KindMessageReactionDecreased : string := "message_reaction_decreased".
Definition KindMessageAnswered : string := "message_answered".

Definition StatusOK : Z := 200.
Definition StatusCreated : Z := 201.
Definition StatusBadRequest : Z := 400.
Definition StatusNotFound : Z := 404.
Definition StatusInternalServerError : Z := 500.

(** A [*websocket.Conn] is a pointer: [None] is nil, [Some p] the connection
    at address [p]. A [context.CancelFunc] is named by the context it
    cancels. *)
Abbreviation Conn := (option positive).
Abbreviation CancelFunc := positive.

(** The field [subscribers] of [Handler]:
    [map[string]map[*websocket.Conn]context.CancelFunc]. *)
Abbreviation Subscribers := (gmap string (gmap (option positive) positive)).

(** *** The registry updates of [handleSubscribe] *)

(** Lines 123-125: make the room's map if there is none. *)
Definition ensure_room (subscribers : Subscribers) (roomID : string) : Subscribers :=
  match subscribers !! roomID with
  | Some _ => subscribers
  | None => <[roomID := ∅]> subscribers
  end.

(** Line 128: [h.subscribers[roomID][conn] = cancel]. *)
Definition set_cancel (subscribers : Subscribers) (roomID : string)
    (conn : Conn) (cancel : CancelFunc) : Subscribers :=
  <[roomID := <[conn := cancel]> (default ∅ (subscribers !! roomID))]> subscribers.

(** Registration is the two together (lines 123-128). *)
Definition register (subscribers : Subscribers) (roomID : string)
    (conn : Conn) (cancel : CancelFunc) : Subscribers :=
  set_cancel (ensure_room subscribers roomID) roomID conn cancel.

(** Line 134: [delete(h.subscribers[roomID], conn)]. Indexing a room that
    has no entry yields a nil map, and deleting from a nil map does nothing. *)
Definition deregister (subscribers : Subscribers) (roomID : string)
    (conn : Conn) : Subscribers :=
  match subscribers !! roomID with
  | Some room => <[roomID := delete conn room]> subscribers
  | None => subscribers
  end.

(** Who is subscribed where: the key sets of the registry. *)
Definition membership (subscribers : Subscribers) : gmap string (gset (option positive)) :=
  dom <$> subscribers.

(** [cancel, ok := h.subscribers[roomID][conn]]: the cancel function
    registered for a connection in a room, if any. *)
Definition cancel_of (subscribers : Subscribers) (roomID : string) (conn : Conn)
    : option CancelFunc :=
  subscribers !! roomID ≫= (.!! conn).

(** A sequence of registrations and deregistrations of one connection in
    one room, as successive [handleSubscribe] runs perform them. *)
Inductive Op : Type :=
| Register (cancel : CancelFunc)
| Deregister.

Definition apply_op (roomID : string) (conn : Conn) (subscribers : Subscribers)
    (op : Op) : Subscribers :=
  match op with
  | Register cancel => register subscribers roomID conn cancel
  | Deregister => deregister subscribers roomID conn
  end.

Definition run_ops (roomID : string) (conn : Conn) (ops : list Op)
    (subscribers : Subscribers) : Subscribers :=
  fold_left (apply_op roomID conn) ops subscribers.

Definition same_call (a b : Op) : bool :=
  match a, b with
  | Register _, Register _ => true
  | Deregister, Deregister => true
  | _, _ => false
  end.

(** Drop every call that repeats the call before it. *)
Fixpoint collapse_after (prev : Op) (ops : list Op) : list Op :=
  match ops with
  | [] => []
  | op :: rest =>
      if same_call prev op then collapse_after prev rest
      else op :: collapse_after op rest
  end.

Definition collapse (ops : list Op) : list Op :=
  match ops with
  | [] => []
  | op :: rest => op :: collapse_after op rest
  end.

(** Registration and deregistration seen on the membership alone. *)
Definition join_room (M : gmap string (gset (option positive))) (roomID : string)
    (conn : Conn) : gmap string (gset (option positive)) :=
  <[roomID := {[conn]} ∪ default ∅ (M !! roomID)]> M.

Definition leave_room (M : gmap string (gset (option positive))) (roomID : string)
    (conn : Conn) : gmap string (gset (option positive)) :=
  match M !! roomID with
  | Some members => <[roomID := members ∖ {[conn]}]> M
  | None => M
  end.

Definition membership_op (roomID : string) (conn : Conn)
    (M : gmap string (gset (option positive))) (op : Op)
    : gmap string (gset (option positive)) :=
  match op with
  | Register _ => join_room M roomID conn
  | Deregister => leave_room M roomID conn
  end.

(** *** Effects *)

Inductive Level : Type := LevelInfo | LevelWarn | LevelError.

(** What a handler does to the outside, in the order it does it. A log
    line has its level, its message and its attributes as text. *)
Inductive Effect : Type :=
| EMuLock                                             (* h.mu.Lock() *)
| EMuUnlock                                           (* h.mu.Unlock() *)
| EWriteJSON (conn : Conn) (frame : Json.value) (err : option error)
                                                      (* conn.WriteJSON(msg) and what it returned *)
| ESlog (level : Level) (msg : string) (attrs : list (string * string))
                                                      (* slog.Info / Warn / Error *)
| ECancel (cancel : CancelFunc)                       (* cancel() *)
| EGo (msg : Message.t)                               (* go h.notifyClients(msg) *)
| EPureJSON (status : Z) (body : Json.value)          (* c.PureJSON(status, obj) *)
| EClose (conn : Conn).                               (* conn.Close() *)

(** How a statement ends: it falls through to the next one, the function
    returns, or the goroutine panics. *)
Inductive Flow (A : Type) : Type :=
| Next (a : A)
| Return
| Panic (reason : string).
Arguments Next {A} a.
Arguments Return {A}.
Arguments Panic {A} reason.

Section Handler.
Context `{Env}.

(** The state a handler runs against: the registry, the contexts that have
    been cancelled, what a write to each connection returns at present, and
    the database. *)
Record World : Type := mkWorld
  { subscribers : Subscribers;
    cancelled : gset positive;
    wire : Conn -> option error;
    store : Store }.

Definition M (A : Type) : Type := World -> Flow A * World * list Effect.

Definition ret {A} (a : A) : M A := fun w => (Next a, w, []).

Definition bind {A B} (m : M A) (k : A -> M B) : M B := fun w =>
  match m w with
  | (Next a, w1, t1) => let '(r, w2, t2) := k a w1 in (r, w2, t1 ++ t2)
  | (Return, w1, t1) => (Return, w1, t1)
  | (Panic reason, w1, t1) => (Panic reason, w1, t1)
  end.

Definition flow {A} (m : M A) (w : World) : Flow A := (m w).1.1.
Definition after {A} (m : M A) (w : World) : World := (m w).1.2.
Definition effects {A} (m : M A) (w : World) : list Effect := (m w).2.

End Handler.

Declare Scope go_scope.
Delimit Scope go_scope with go.
Notation "x <- m ;; k" := (bind m (fun x => k))
  (at level 100, m at next level, right associativity) : go_scope.
Notation "m ;;; k" := (bind m (fun _ => k))
  (at level 100, right associativity) : go_scope.

Section Statements.
Context `{Env}.
Local Open Scope go_scope.

Definition emit (e : Effect) : M unit := fun w => (Next tt, w, [e]).

(** [return] *)
Definition return_ {A} : M A := fun w => (Return, w, []).

(** [panic(reason)] *)
Definition panic {A} (reason : string) : M A := fun w => (Panic reason, w, []).

(** A function body: a [return] inside it ends the body, not the caller. *)
Definition func (body : M unit) : M unit := fun w =>
  match body w with
  | (Return, w1, t1) => (Next tt, w1, t1)
  | r => r
  end.

(** [defer d] followed by [body]: [d] runs when [body] is left, however it
    is left (a panicking body included); a panic of [d] itself leaves the
    function panicking. *)
Definition defer {A} (d : M unit) (body : M A) : M A := fun w =>
  let '(r, w1, t1) := body w in
  match d w1 with
  | (Panic reason, w2, t2) => (Panic reason, w2, t1 ++ t2)
  | (_, w2, t2) => (r, w2, t1 ++ t2)
  end.

(** [for k, v := range entries { body }] over the entries in the order
    visited. *)
Fixpoint for_range {K V} (entries : list (K * V)) (body : K -> V -> M unit) : M unit :=
  match entries with
  | [] => ret tt
  | (k, v) :: rest => body k v ;;; for_range rest body
  end.

Definition mu_Lock : M unit := emit EMuLock.
Definition mu_Unlock : M unit := emit EMuUnlock.

Definition slog_Info (msg : string) (attrs : list (string * string)) : M unit :=
  emit (ESlog LevelInfo msg attrs).
Definition slog_Warn (msg : string) (attrs : list (string * string)) : M unit :=
  emit (ESlog LevelWarn msg attrs).
Definition slog_Error (msg : string) (attrs : list (string * string)) : M unit :=
  emit (ESlog LevelError msg attrs).

(** The attribute ["error", err]. *)
Definition error_attr (err : error) : list (string * string) :=
  [("error", error_Error err)].

(** What a method of [*websocket.Conn] does on the nil pointer: it
    dereferences it. *)
Definition nil_dereference : string :=
  "invalid memory address or nil pointer dereference".

(** [conn.WriteJSON(v)]: the frame is the JSON document of [v] (the encoder
    ends it with a line feed); the transport says whether the write
    succeeds. On the nil connection the call panics before anything is
    written. *)
Definition conn_WriteJSON {T} `{Marshaler T} (conn : Conn) (v : T) : M (option error) :=
  match conn with
  | None => panic nil_dereference
  | Some _ =>
      fun w => (Next (wire w conn), w, [EWriteJSON conn (to_json v) (wire w conn)])
  end.

(** [conn.Close()]: the call is recorded; on the nil connection it panics. *)
Definition conn_Close (conn : Conn) : M unit :=
  match conn with
  | None => emit (EClose conn) ;;; panic nil_dereference
  | Some _ => emit (EClose conn)
  end.

(** Calling a [context.CancelFunc]: its context is done from then on. *)
Definition call_cancel (cancel : CancelFunc) : M unit := fun w =>
  (Next tt,
   mkWorld (subscribers w) ({[cancel]} ∪ cancelled w) (wire w) (store w),
   [ECancel cancel]).

(** [c.PureJSON(status, obj)] *)
Definition c_PureJSON {T} `{Marshaler T} (status : Z) (obj : T) : M unit :=
  emit (EPureJSON status (to_json obj)).

(** Reading and writing [h.subscribers]. *)
Definition get_subscribers : M Subscribers := fun w => (Next (subscribers w), w, []).
Definition set_subscribers (s : Subscribers) : M unit := fun w =>
  (Next tt, mkWorld s (cancelled w) (wire w) (store w), []).

(** A query that only reads, and one that may write. *)
Definition query {T} (q : Store -> T) : M T := fun w => (Next (q (store w)), w, []).
Definition exec {T} (q : Store -> T * Store) : M T := fun w =>
  let '(r, s) := q (store w) in
  (Next r, mkWorld (subscribers w) (cancelled w) (wire w) s, []).

(** *** notifyClients (lines 76-91) *)

Definition notifyClients (msg : Message.t) : M unit :=
  func (
    mu_Lock ;;;
    defer mu_Unlock (
      h_subscribers <- get_subscribers ;;
      match h_subscribers !! Message.RoomID msg with
      | None => return_
      | Some subscribers =>
          if decide (size subscribers = 0%nat) then return_
          else
            for_range (range_order subscribers) (fun conn cancel =>
              err <- conn_WriteJSON conn msg ;;
              match err with
              | Some err =>
                  slog_Error "failed to send message to client" (error_attr err) ;;;
                  call_cancel cancel
              | None => ret tt
              end)
      end)).

(** [go h.notifyClients(msg)]: the call is handed to a new goroutine; the
    handler goes on at once. *)
Definition go_notifyClients (msg : Message.t) : M unit := emit (EGo msg).

(** [v, err := call; if err != nil { on_err; return }] *)
Definition check {T} (call : M (Result T)) (on_err : error -> M unit) : M T :=
  r <- call ;;
  match r with
  | OK v => ret v
  | Failed err => on_err err ;;; return_
  end.

(** [uuid.MustParse(s)] *)
Definition uuid_MustParse (s : string) : M UUID :=
  match MustParse s with
  | Some id => ret id
  | None => panic "uuid: Parse: invalid UUID"
  end.

(** The room lookup every handler starts with (lines 101-111, 207-217, ...):
    [_, err := h.queries.GetRoom(ctx, roomID)] and its error branch. *)
Definition require_room (roomID : UUID) : M Room :=
  check (query (GetRoom roomID)) (fun err =>
    if is_ErrNoRows err then
      c_PureJSON StatusNotFound "room not found"
    else
      slog_Error "failed to get room" (error_attr err) ;;;
      c_PureJSON StatusInternalServerError "something went wrong").

(** The message lookup (lines 313-323, 354-364, ...). *)
Definition require_message (messageID : UUID) : M (pgstore.Message UUID) :=
  check (query (GetMessage messageID)) (fun err =>
    if is_ErrNoRows err then
      c_PureJSON StatusNotFound "message not found"
    else
      slog_Error "failed to get message" (error_attr err) ;;;
      c_PureJSON StatusInternalServerError "something went wrong").

(** [c.ShouldBindUri(&uri)] / [c.ShouldBindJSON(&body)] with the error
    branch the handlers other than [handleSubscribe] share. *)
Definition bind_or_400 {T} (bound : Result T) : M T :=
  check (ret bound) (fun err => c_PureJSON StatusBadRequest (error_Error err)).

(** *** handleSubscribe (lines 93-136)

    The handler blocks at [<-ctx.Done()] (line 131). Up to there it is one
    run; what is left becomes the continuation of [AwaitDone], which
    [resume] runs once the context is done. *)

Inductive Suspended : Type :=
| Finished
| AwaitDone (ctx : positive) (rest : M unit).

Definition handleSubscribe (c : gin_Context) : M Suspended := fun w =>
  match
    (uri <- check (ret (ShouldBindUri_GetRoomByIDInput c)) (fun err =>
              c_PureJSON StatusBadRequest
                (Object [("error", Str (error_Error err))])) ;;
     roomID <- uuid_MustParse (GetRoomByIDInput.RoomID uri) ;;
     _ <- require_room roomID ;;
     conn <- match Upgrade c with
             | OK p => ret (Some p)
             | Failed err =>
                 slog_Warn "failed to upgrade connection" (error_attr err) ;;;
                 c_PureJSON StatusBadRequest "something went wrong" ;;;
                 ret None
             end ;;
     (* defer conn.Close() *)
     let cancel := WithCancel c in
     mu_Lock ;;;
     s <- get_subscribers ;;
     set_subscribers (ensure_room s (UUID_String roomID)) ;;;
     slog_Info "new client connected"
               [("room_id", UUID_String roomID); ("client_ip", ClientIP c)] ;;;
     s <- get_subscribers ;;
     set_subscribers (set_cancel s (UUID_String roomID) conn cancel) ;;;
     mu_Unlock ;;;
     (* <-ctx.Done() *)
     ret (AwaitDone cancel
            (defer (conn_Close conn)
               (mu_Lock ;;;
                s <- get_subscribers ;;
                set_subscribers (deregister s (UUID_String roomID) conn) ;;;
                mu_Unlock)))) w
  with
  | (Return, w1, t1) => (Next Finished, w1, t1)
  | r => r
  end.


(** *** handleCreateRoomMessage (lines 199-245) *)

Definition handleCreateRoomMessage (c : gin_Context) : M unit :=
  func (
    uri <- bind_or_400 (ShouldBindUri_GetRoomByIDInput c) ;;
    roomID <- uuid_MustParse (GetRoomByIDInput.RoomID uri) ;;
    _ <- require_room roomID ;;
    body <- bind_or_400 (ShouldBindJSON_CreateMessageInput c) ;;
    messageID <- check (exec (InsertMessage
                   (pgstore.mkInsertMessageParams roomID (CreateMessageInput.Message body))))
                   (fun err =>
                      slog_Error "failed to insert message" (error_attr err) ;;;
                      c_PureJSON StatusInternalServerError "something went wrong") ;;
    go_notifyClients
      (Message.mk KindMessageCreated
         (Any (MessageCreatedEvent.mk (UUID_String messageID)
                                      (CreateMessageInput.Message body)))
         (UUID_String roomID)) ;;;
    c_PureJSON StatusCreated (CreateMessageOutput.mk (UUID_String messageID))).

(** *** handleGetRoomMessages (lines 247-290)

    A slice is a list; the nil slice the query layer returns for no rows is
    the empty list. *)

Definition handleGetRoomMessages (c : gin_Context) : M unit :=
  func (
    uri <- bind_or_400 (ShouldBindUri_GetRoomByIDInput c) ;;
    roomID <- uuid_MustParse (GetRoomByIDInput.RoomID uri) ;;
    _ <- require_room roomID ;;
    messages <- check (query (GetRoomMessages roomID)) (fun err =>
                  slog_Error "failed to get room messages" (error_attr err) ;;;
                  c_PureJSON StatusInternalServerError "something went wrong") ;;
    match messages with
    | [] => c_PureJSON StatusOK ([] : list GetMessageOutput.t) ;;; return_
    | _ =>
        let output :=
          List.map (fun message =>
            GetMessageOutput.mk (UUID_String (pgstore.ID message))
                                (pgstore.Message_ message)
                                (pgstore.ReactionCount message)
                                (pgstore.Answered message)) messages in
        c_PureJSON StatusOK output
    end).

(** *** handleGetRoomMessage (lines 292-331) *)

Definition handleGetRoomMessage (c : gin_Context) : M unit :=
  func (
    uri <- bind_or_400 (ShouldBindUri_GetMessageByIDInput c) ;;
    roomID <- uuid_MustParse (GetMessageByIDInput.RoomID uri) ;;
    _ <- require_room roomID ;;
    messageID <- uuid_MustParse (GetMessageByIDInput.MessageID uri) ;;
    message <- require_message messageID ;;
    c_PureJSON StatusOK
      (GetMessageOutput.mk (UUID_String messageID)
                           (pgstore.Message_ message)
                           (pgstore.ReactionCount message)
                           (pgstore.Answered message))).

(** *** handleReactToMessage (lines 333-385) *)

Definition handleReactToMessage (c : gin_Context) : M unit :=
  func (
    uri <- bind_or_400 (ShouldBindUri_GetMessageByIDInput c) ;;
    roomID <- uuid_MustParse (GetMessageByIDInput.RoomID uri) ;;
    _ <- require_room roomID ;;
    messageID <- uuid_MustParse (GetMessageByIDInput.MessageID uri) ;;
    _ <- require_message messageID ;;
    count <- check (exec (ReactToMessage messageID)) (fun err =>
               slog_Error "failed to react to message" (error_attr err) ;;;
               c_PureJSON StatusInternalServerError "something went wrong") ;;
    go_notifyClients
      (Message.mk KindMessageReactionIncreased
         (Any (MessageReactionCountChangedEvent.mk (UUID_String messageID) count))
         (UUID_String roomID)) ;;;
    c_PureJSON StatusOK (ReactToMessageOutput.mk count)).

(** *** handleRemoveReactionFromMessage (lines 387-437) *)

Definition handleRemoveReactionFromMessage (c : gin_Context) : M unit :=
  func (
    uri <- bind_or_400 (ShouldBindUri_GetMessageByIDInput c) ;;
    roomID <- uuid_MustParse (GetMessageByIDInput.RoomID uri) ;;
    _ <- require_room roomID ;;
    messageID <- uuid_MustParse (GetMessageByIDInput.MessageID uri) ;;
    _ <- require_message messageID ;;
    count <- check (exec (RemoveReactionFromMessage messageID)) (fun err =>
               slog_Error "failed to remove reaction from message" (error_attr err) ;;;
               c_PureJSON StatusInternalServerError "something went wrong") ;;
    go_notifyClients
      (Message.mk KindMessageReactionDecreased
         (Any (MessageReactionCountChangedEvent.mk (UUID_String messageID) count))
         (UUID_String roomID)) ;;;
    c_PureJSON StatusOK (ReactToMessageOutput.mk count)).

(** *** handleMarkMessageAsAnswered (lines 439-487) *)

Definition handleMarkMessageAsAnswered (c : gin_Context) : M unit :=
  func (
    uri <- bind_or_400 (ShouldBindUri_GetMessageByIDInput c) ;;
    roomID <- uuid_MustParse (GetMessageByIDInput.RoomID uri) ;;
    _ <- require_room roomID ;;
    messageID <- uuid_MustParse (GetMessageByIDInput.MessageID uri) ;;
    _ <- require_message messageID ;;
    err <- exec (MarkMessageAsAnswered messageID) ;;
    match err with
    | Some err =>
        slog_Error "failed to mark message as answered" (error_attr err) ;;;
        c_PureJSON StatusInternalServerError "something went wrong" ;;;
        return_
    | None => ret tt
    end ;;;
    go_notifyClients
      (Message.mk KindMessageAnswered
         (Any (MessageAnsweredEvent.mk (UUID_String messageID)))
         (UUID_String roomID)) ;;;
    c_PureJSON StatusOK Null).

(** *** What one run of [notifyClients] does

    The loop body's effects for one entry, and the contexts cancelled by the
    loop, as functions of the entries visited. *)

Definition send_effects (w : World) (msg : Message.t) (entry : Conn * CancelFunc) : list Effect :=
  match wire w entry.1 with
  | None => [EWriteJSON entry.1 (to_json msg) None]
  | Some err =>
      [EWriteJSON entry.1 (to_json msg) (Some err);
       ESlog LevelError "failed to send message to client" (error_attr err);
       ECancel entry.2]
  end.

Definition cancelled_by (w : World) (entries : list (Conn * CancelFunc)) : gset positive :=
  fold_left (fun acc entry =>
               match wire w entry.1 with
               | None => acc
               | Some _ => {[entry.2]} ∪ acc
               end) entries (cancelled w).

(** The entries [notifyClients] visits for a room. *)
Definition room_entries (w : World) (roomID : string) : list (Conn * CancelFunc) :=
  range_order (default ∅ (subscribers w !! roomID)).

(** The entries a loop gets through: those before the first nil
    connection, on which [WriteJSON] panics. *)
Fixpoint live_prefix (entries : list (Conn * CancelFunc)) : list (Conn * CancelFunc) :=
  match entries with
  | [] => []
  | (None, _) :: _ => []
  | entry :: rest => entry :: live_prefix rest
  end.

(** How the loop over [entries] ends. *)
Fixpoint loop_flow (entries : list (Conn * CancelFunc)) : Flow unit :=
  match entries with
  | [] => Next tt
  | (None, _) :: _ => Panic nil_dereference
  | _ :: rest => loop_flow rest
  end.

(** The entries a run of [notifyClients] gets through for a room. *)
Definition visited (w : World) (roomID : string) : list (Conn * CancelFunc) :=
  live_prefix (room_entries w roomID).

(** The frames a connection has been sent successfully, oldest first. *)
Definition received (conn : Conn) (tr : list Effect) : list Json.value :=
  omap (fun e => match e with
                 | EWriteJSON conn' frame None =>
                     if decide (conn' = conn) then Some frame else None
                 | _ => None
                 end) tr.

(** The HTTP responses written, oldest first. *)
Definition responses (tr : list Effect) : list (Z * Json.value) :=
  omap (fun e => match e with
                 | EPureJSON status body => Some (status, body)
                 | _ => None
                 end) tr.

(** Whether [h.mu] is held after the effects [tr], given whether it was
    held before. *)
Definition mu_held (before : bool) (tr : list Effect) : bool :=
  fold_left (fun held e => match e with
                           | EMuLock => true
                           | EMuUnlock => false
                           | _ => held
                           end) tr before.

(** The loop of lines 85-90 over the entries visited. *)
Definition send_loop (msg : Message.t) (entries : list (Conn * CancelFunc)) : M unit :=
  for_range entries (fun conn cancel =>
    bind (conn_WriteJSON conn msg) (fun err =>
      match err with
      | Some err =>
          bind (slog_Error "failed to send message to client" (error_attr err))
               (fun _ => call_cancel cancel)
      | None => ret tt
      end)).

(** The effects that are not lock operations. *)
Definition not_mu (e : Effect) : Prop :=
  match e with
  | EMuLock | EMuUnlock => False
  | _ => True
  end.

(** What a request handler does itself: log lines, the [go] statement and
    the response; no lock operation, no write to a connection, no
    cancellation. *)
Definition handler_effect (e : Effect) : Prop :=
  match e with
  | ESlog _ _ _ | EGo _ | EPureJSON _ _ => True
  | _ => False
  end.

(** A program is detached from the fan-out when its outcome, its effects
    and what it leaves in the database are the same in any two worlds with
    the same database (whatever the registry, the cancelled contexts and
    the state of the connections), and its effects are a handler's own. *)
Definition detached {A} (m : M A) : Prop :=
  forall w w', store w = store w' ->
    flow m w = flow m w'
    /\ effects m w = effects m w'
    /\ store (after m w) = store (after m w')
    /\ Forall handler_effect (effects m w).

(** The handlers of the four write requests. *)
Definition write_handlers : list (gin_Context -> M unit) :=
  [handleCreateRoomMessage; handleReactToMessage;
   handleRemoveReactionFromMessage; handleMarkMessageAsAnswered].

(** The JSON object of a message as the read endpoints return it. *)
Definition message_object (m : pgstore.Message UUID) : Json.value :=
  Json.Object [("id", Json.Str (UUID_String (pgstore.ID m)));
               ("theme", Json.Str (pgstore.Message_ m));
               ("reaction_count", Json.Number (pgstore.ReactionCount m));
               ("answered", Json.Bool (pgstore.Answered m))].

(** The event of a changed reaction count (lines 373-380 and 427-434). *)
Definition reaction_event (kind : string) (roomID messageID : UUID) (count : Z)
    : Message.t :=
  Message.mk kind
    (Any (MessageReactionCountChangedEvent.mk (UUID_String messageID) count))
    (UUID_String roomID).

(** The answer to a failed lookup of a room or a message (lines 102-111,
    314-323, ...): 404 when there is no such row, else a logged 500. *)
Definition lookup_refusal (what : string) (err : error) : list Effect :=
  if is_ErrNoRows err then
    [EPureJSON StatusNotFound (Str (what +:+ " not found"))]
  else
    [ESlog LevelError ("failed to get " +:+ what) (error_attr err);
     EPureJSON StatusInternalServerError (Str "something went wrong")].

(** The steps the three handlers of a request on a message share (lines
    334-364, 388-418, 440-470), all of them succeeding: the URI binds, both
    identifiers parse, the room and the message load. *)
Definition message_lookups (c : gin_Context) (w : World) (roomID messageID : UUID) : Prop :=
  exists uri room message,
    ShouldBindUri_GetMessageByIDInput c = OK uri
    /\ MustParse (GetMessageByIDInput.RoomID uri) = Some roomID
    /\ GetRoom roomID (store w) = OK room
    /\ MustParse (GetMessageByIDInput.MessageID uri) = Some messageID
    /\ GetMessage messageID (store w) = OK message.

(** What is left of [handleSubscribe] after [<-ctx.Done()] (lines 133-135,
    then the deferred [conn.Close()]). *)
Definition handleSubscribe_leave (roomID : string) (conn : Conn) : M unit :=
  defer (conn_Close conn)
    (mu_Lock ;;;
     s <- get_subscribers ;;
     set_subscribers (deregister s roomID conn) ;;;
     mu_Unlock).

(** The events handed to [go h.notifyClients], oldest first. *)
Definition published (tr : list Effect) : list Message.t :=
  omap (fun e => match e with
                 | EGo msg => Some msg
                 | _ => None
                 end) tr.

(** The writes attempted on a connection, with what each returned. *)
Definition attempts (conn : Conn) (tr : list Effect) : list (Json.value * option error) :=
  omap (fun e => match e with
                 | EWriteJSON conn' frame err =>
                     if decide (conn' = conn) then Some (frame, err) else None
                 | _ => None
                 end) tr.

(** The effects of a handler that refuses a request: a 400 with a text
    [bad_request] allows (the text of a binding error of the request), a
    404 naming what was not found, or an error log line followed at once by
    a 500 with a fixed text. *)
Inductive Refusal (bad_request : string -> Prop) : list Effect -> Prop :=
| refusal_bad_request (text : string) :
    bad_request text ->
    Refusal bad_request [EPureJSON StatusBadRequest (Str text)]
| refusal_not_found (text : string) :
    text = "room not found" \/ text = "message not found" ->
    Refusal bad_request [EPureJSON StatusNotFound (Str text)]
| refusal_internal (msg : string) (attrs : list (string * string)) :
    Refusal bad_request
            [ESlog LevelError msg attrs;
             EPureJSON StatusInternalServerError (Str "something went wrong")].

(** The effects of a handler that serves a request: a 200 or 201 response,
    preceded by the [go] statement when the handler publishes. *)
Inductive Success : bool -> list Effect -> Prop :=
| success_plain (status : Z) (body : Json.value) :
    status = StatusOK \/ status = StatusCreated ->
    Success false [EPureJSON status body]
| success_published (msg : Message.t) (status : Z) (body : Json.value) :
    status = StatusOK \/ status = StatusCreated ->
    Success true [EGo msg; EPureJSON status body].

(** Two worlds with the same registry, cancelled contexts and connections. *)
Definition same_sessions (w w' : World) : Prop :=
  subscribers w' = subscribers w /\ cancelled w' = cancelled w /\ wire w' = wire w.

(** A step that either goes on silently or refuses the request and
    returns. *)
Definition guard {A} (bad_request : string -> Prop) (m : M A) : Prop :=
  forall w,
    match m w with
    | (Next _, w', t) => t = [] /\ same_sessions w w'
    | (Return, w', t) => Refusal bad_request t /\ same_sessions w w'
    | (Panic _, w', t) => t = [] /\ same_sessions w w'
    end.

(** [on_err] answers with a refusal and goes on (to the [return]). *)
Definition refuses (bad_request : string -> Prop) (m : M unit) : Prop :=
  forall w, exists t, m w = (Next tt, w, t) /\ Refusal bad_request t.

(** A step that ends the handler with an answer. *)
Definition final {A} (bad_request : string -> Prop) (publishes : bool) (m : M A) : Prop :=
  forall w,
    match m w with
    | (Next _, w', t) => Success publishes t /\ same_sessions w w'
    | (Return, w', t) =>
        (Refusal bad_request t \/ Success publishes t) /\ same_sessions w w'
    | (Panic _, w', t) => t = [] /\ same_sessions w w'
    end.

(** What a whole handler does: it returns after a refusal or a success, or
    it panics before any effect. *)
Definition answers (bad_request : string -> Prop) (publishes : bool)
    (handler : M unit) : Prop :=
  forall w,
    match handler w with
    | (Next _, w', t) =>
        (Refusal bad_request t \/ Success publishes t) /\ same_sessions w w'
    | (Return, _, _) => False
    | (Panic _, w', t) => t = [] /\ same_sessions w w'
    end.

End Statements.

Section RoomHandlers.
Context `{RoomQueries}.
Local Open Scope go_scope.

(** *** handleCreateRoom (lines 138-153) *)

Definition handleCreateRoom (c : gin_Context) : M unit :=
  func (
    body <- bind_or_400 (ShouldBindJSON_CreateRoomInput c) ;;
    roomID <- check (exec (InsertRoom (CreateRoomInput.Theme body))) (fun err =>
                slog_Error "failed to insert room" (error_attr err) ;;;
                c_PureJSON StatusInternalServerError "something went wrong") ;;
    c_PureJSON StatusCreated (CreateRoomOutput.mk (UUID_String roomID))).

(** *** handleGetRooms (lines 155-174)

    As in [handleGetRoomMessages], the nil slice is the empty list. *)

Definition handleGetRooms (c : gin_Context) : M unit :=
  func (
    rooms <- check (query GetRooms) (fun err =>
               slog_Error "failed to get rooms" (error_attr err) ;;;
               c_PureJSON StatusInternalServerError "something went wrong") ;;
    match rooms with
    | [] => c_PureJSON StatusOK ([] : list GetRoomsOutput.t) ;;; return_
    | _ =>
        let output :=
          List.map (fun room =>
            GetRoomsOutput.mk (UUID_String (Room_ID room)) (Room_Theme room)) rooms in
        c_PureJSON StatusOK output
    end).

(** *** handleGetRoom (lines 176-197) *)

Definition handleGetRoom (c : gin_Context) : M unit :=
  func (
    uri <- bind_or_400 (ShouldBindUri_GetRoomByIDInput c) ;;
    roomID <- uuid_MustParse (GetRoomByIDInput.RoomID uri) ;;
    room <- require_room roomID ;;
    c_PureJSON StatusOK
      (GetRoomsOutput.mk (UUID_String (Room_ID room)) (Room_Theme room))).

(** The JSON object of a room as the room endpoints return it. *)
Definition room_object (room : Room) : Json.value :=
  Json.Object [("id", Json.Str (UUID_String (Room_ID room)));
               ("theme", Json.Str (Room_Theme room))].

(** The texts of the binding errors of a request: what [err.Error()] gives
    for an [err] that [c.ShouldBindUri] or [c.ShouldBindJSON] returns on
    it. *)
Definition binding_error (c : gin_Context) (text : string) : Prop :=
  exists err,
    text = error_Error err
    /\ (ShouldBindUri_GetRoomByIDInput c = Failed err
        \/ ShouldBindUri_GetMessageByIDInput c = Failed err
        \/ ShouldBindJSON_CreateMessageInput c = Failed err
        \/ ShouldBindJSON_CreateRoomInput c = Failed err).

(** The answer to a failed query other than a lookup: the error is logged
    and the client is told a fixed text. *)
Definition internal_error (msg : string) (err : error) : list Effect :=
  [ESlog LevelError msg (error_attr err);
   EPureJSON StatusInternalServerError (Str "something went wrong")].

(** The handlers of the plain request and response endpoints: all but
    [handleSubscribe]. *)
Definition rest_handlers : list (gin_Context -> M unit) :=
  [handleCreateRoom; handleGetRooms; handleGetRoom;
   handleCreateRoomMessage; handleGetRoomMessages; handleGetRoomMessage;
   handleReactToMessage; handleRemoveReactionFromMessage; handleMarkMessageAsAnswered].

End RoomHandlers.

(** ** A small in-memory instance of the collaborators

    Identifiers are plain strings, the database is a list of rooms and a
    list of messages, a request carries its path parameters, its decoded
    body and what the upgrader answers. *)

Module mem.

Record Database : Type := mkDatabase
  { rooms : list string;
    messages : list (pgstore.Message string);
    next_id : positive }.

Record Request : Type := mkRequest
  { room_id : string;
    message_id : string;
    body : Result string;
    client_ip : string;
    upgrade : Result positive;
    ctx : positive }.

Definition get_room (id : string) (st : Database) : Result string :=
  if bool_decide (id ∈ rooms st) then OK id else Failed ErrNoRows.

Definition get_message (id : string) (st : Database) : Result (pgstore.Message string) :=
  match List.find (fun m => String.eqb (pgstore.ID m) id) (messages st) with
  | Some m => OK m
  | None => Failed ErrNoRows
  end.

Definition get_room_messages (room : string) (st : Database)
    : Result (list (pgstore.Message string)) :=
  OK (List.filter (fun m => String.eqb (pgstore.RoomID m) room) (messages st)).

Definition insert_message (p : pgstore.InsertMessageParams string) (st : Database)
    : Result string * Database :=
  let id := "m" +:+ pretty (Zpos (next_id st)) in
  (OK id,
   mkDatabase (rooms st)
           (messages st ++ [pgstore.mkMessage id (pgstore.Params_RoomID p)
                                              (pgstore.Params_Message p) 0 false])
           (Pos.succ (next_id st))).

Definition update_message (f : pgstore.Message string -> pgstore.Message string)
    (id : string) (st : Database) : Database :=
  mkDatabase (rooms st)
          (List.map (fun m => if String.eqb (pgstore.ID m) id then f m else m) (messages st))
          (next_id st).

Definition add_reaction (d : Z) (m : pgstore.Message string) : pgstore.Message string :=
  pgstore.mkMessage (pgstore.ID m) (pgstore.RoomID m) (pgstore.Message_ m)
                    (pgstore.ReactionCount m + d) (pgstore.Answered m).

Definition react (d : Z) (id : string) (st : Database) : Result Z * Database :=
  match get_message id st with
  | OK m => (OK (pgstore.ReactionCount m + d), update_message (add_reaction d) id st)
  | Failed err => (Failed err, st)
  end.

Definition mark_answered (id : string) (st : Database) : option error * Database :=
  (None,
   update_message (fun m => pgstore.mkMessage (pgstore.ID m) (pgstore.RoomID m)
                              (pgstore.Message_ m) (pgstore.ReactionCount m) true) id st).

Definition required (what : string) (s : string) : Result string :=
  if String.eqb s EmptyString then Failed (ErrOther (what +:+ " is required")) else OK s.

Definition bind_room (r : Request) : Result schema.GetRoomByIDInput.t :=
  match required "room_id" (room_id r) with
  | OK s => OK (schema.GetRoomByIDInput.mk s)
  | Failed err => Failed err
  end.

Definition bind_message (r : Request) : Result schema.GetMessageByIDInput.t :=
  match required "room_id" (room_id r), required "message_id" (message_id r) with
  | OK s, OK m => OK (schema.GetMessageByIDInput.mk s m)
  | Failed err, _ => Failed err
  | _, Failed err => Failed err
  end.

Definition bind_body (r : Request) : Result schema.CreateMessageInput.t :=
  match body r with
  | OK s => OK (schema.CreateMessageInput.mk s)
  | Failed err => Failed err
  end.

#[export] Instance env : Env :=
  {| UUID := string;
     MustParse := fun s => if String.eqb s EmptyString then None else Some s;
     UUID_String := fun s => s;
     Store := Database;
     Room := string;
     GetRoom := get_room;
     GetMessage := get_message;
     GetRoomMessages := get_room_messages;
     InsertMessage := insert_message;
     ReactToMessage := react 1;
     RemoveReactionFromMessage := react (-1);
     MarkMessageAsAnswered := mark_answered;
     gin_Context := Request;
     ShouldBindUri_GetRoomByIDInput := bind_room;
     ShouldBindUri_GetMessageByIDInput := bind_message;
     ShouldBindJSON_CreateMessageInput := bind_body;
     ClientIP := client_ip;
     Upgrade := upgrade;
     WithCancel := ctx;
     range_order := map_to_list;
     range_order_perm := fun m => Permutation_refl (map_to_list m) |}.

Definition get_rooms (st : Database) : Result (list string) := OK (rooms st).

(** A room is its theme: creating a room adds the theme to the list. *)
Definition insert_room (theme : string) (st : Database) : Result string * Database :=
  (OK theme, mkDatabase (rooms st ++ [theme]) (messages st) (next_id st)).

Definition bind_theme (r : Request) : Result schema.CreateRoomInput.t :=
  match body r with
  | OK s => OK (schema.CreateRoomInput.mk s)
  | Failed err => Failed err
  end.

Definition room_name (r : string) : string := r.

#[export] Instance room_queries : RoomQueries :=
  {| Room_ID := room_name;
     Room_Theme := room_name;
     GetRooms := get_rooms;
     InsertRoom := insert_room;
     ShouldBindJSON_CreateRoomInput := bind_theme |}.

(** The room queries of a database that cannot be reached: both fail. *)
Definition unreachable : error := ErrOther "connection refused".

Definition down_queries : RoomQueries :=
  {| Room_ID := room_name;
     Room_Theme := room_name;
     GetRooms := fun _ => Failed unreachable;
     InsertRoom := fun _ st => (Failed unreachable, st);
     ShouldBindJSON_CreateRoomInput := bind_theme |}.

(** One room [R] in the database, nobody subscribed, every connection
    healthy. *)
Definition store0 : Database := mkDatabase ["R"] [] 1.
Definition world0 : World :=
  mkWorld ∅ ∅ (fun _ => None) store0.

(** The same with connection 1 subscribed to [R] under context 7. *)
Definition world1 : World :=
  mkWorld (register ∅ "R" (Some 1%positive) 7%positive) ∅ (fun _ => None) store0.

(** Connections 1 and 2 subscribed to [R]; writes to 2 fail. *)
Definition world2 : World :=
  mkWorld (register (register ∅ "R" (Some 1%positive) 7%positive)
                    "R" (Some 2%positive) 8%positive)
          ∅
          (fun conn => if decide (conn = Some 2%positive)
                       then Some (ErrOther "broken pipe") else None)
          store0.

Definition created_m1 (roomID : string) : schema.Message.t :=
  schema.Message.mk KindMessageCreated
    (schema.Any (schema.MessageCreatedEvent.mk "m1" "hi")) roomID.

(** Connection 1 subscribed to [R1] only. *)
Definition world_R1 : World :=
  mkWorld (register ∅ "R1" (Some 1%positive) 7%positive) ∅ (fun _ => None) store0.

(** Connection 1 has subscribed to [R] and left again: the room's entry
    stays, empty. *)
Definition world_left : World :=
  mkWorld (deregister (register ∅ "R" (Some 1%positive) 7%positive) "R" (Some 1%positive))
          ∅ (fun _ => None) store0.

(** A database with the message [m1] in room [R], and a world over it. *)
Definition store_m1 : Database :=
  mkDatabase ["R"] [pgstore.mkMessage "m1" "R" "hi" 2 false] 2.
Definition world_m1 : World :=
  mkWorld ∅ ∅ (fun _ => None) store_m1.

(** Requests: post the text [hello] to room [R]; read message [m1] of room
    [R]; list the messages of room [R]. *)
Definition post_hello : Request :=
  mkRequest "R" EmptyString (OK "hello") "10.0.0.1" (Failed (ErrOther "not a handshake")) 3.
Definition get_m1 : Request :=
  mkRequest "R" "m1" (Failed (ErrOther "EOF")) "10.0.0.1" (Failed (ErrOther "not a handshake")) 3.

(** More requests: a WebSocket handshake for room [R], which yields
    connection 5 and context 9; the same for a room that does not exist;
    a create-room request with the theme [golang]. *)
Definition subscribe_R : Request :=
  mkRequest "R" EmptyString (Failed (ErrOther "EOF")) "10.0.0.1" (OK 5%positive) 9.
Definition subscribe_nowhere : Request :=
  mkRequest "nowhere" EmptyString (Failed (ErrOther "EOF")) "10.0.0.1" (OK 5%positive) 9.
Definition create_golang : Request :=
  mkRequest EmptyString EmptyString (OK "golang") "10.0.0.1"
            (Failed (ErrOther "not a handshake")) 3.

(** A request that names room [R] and message [m1] and carries the text
    [hello]: each of the four write handlers serves it on [store_m1]. *)
Definition write_m1 : Request :=
  mkRequest "R" "m1" (OK "hello") "10.0.0.1" (Failed (ErrOther "not a handshake")) 3.

(** The database of [world_m1] with a healthy and a broken subscriber of
    [R]. *)
Definition world_m1_busy : World :=
  mkWorld (subscribers world2) ∅ (wire world2) store_m1.

(** The JSON document of [created_m1]. *)
Definition frame_m1 : Json.value :=
  Json.Object [("kind", Json.Str "message_created");
               ("value", Json.Object [("ID", Json.Str "m1"); ("Message", Json.Str "hi")])].

End mem.

End api.


Import api.

(** * Properties *)

(** ** The registry *)

Section Registry.
Implicit Types (subs : gmap string (gmap (option positive) positive)).
Implicit Types (M : gmap string (gset (option positive))).
Implicit Types (conn : option positive) (roomID : string).

Lemma register_insert subs roomID conn cancel :
  register subs roomID conn cancel
  = <[roomID := <[conn := cancel]> (default ∅ (subs !! roomID))]> subs.
Proof.
  unfold register, set_cancel, ensure_room.
  destruct (subs !! roomID) as [room|] eqn:E.
  - by rewrite E.
  - rewrite lookup_insert_eq. simpl. by rewrite insert_insert_eq.
Qed.

Lemma membership_register subs roomID conn cancel :
  membership (register subs roomID conn cancel)
  = join_room (membership subs) roomID conn.
Proof.
  rewrite register_insert. unfold membership, join_room.
  rewrite fmap_insert, dom_insert_L, lookup_fmap.
  destruct (subs !! roomID); simpl; [done|]. by rewrite dom_empty_L.
Qed.

Lemma membership_deregister subs roomID conn :
  membership (deregister subs roomID conn)
  = leave_room (membership subs) roomID conn.
Proof.
  unfold deregister, leave_room, membership. rewrite lookup_fmap.
  destruct (subs !! roomID); simpl; [|done].
  by rewrite fmap_insert, dom_delete_L.
Qed.

Lemma join_room_twice M roomID conn :
  join_room (join_room M roomID conn) roomID conn = join_room M roomID conn.
Proof.
  unfold join_room. rewrite lookup_insert_eq, insert_insert_eq. simpl.
  f_equal. set_solver.
Qed.

Lemma leave_room_twice M roomID conn :
  leave_room (leave_room M roomID conn) roomID conn = leave_room M roomID conn.
Proof.
  unfold leave_room. destruct (M !! roomID) as [members|] eqn:E.
  - rewrite lookup_insert_eq, insert_insert_eq. f_equal. set_solver.
  - by rewrite E.
Qed.

Lemma membership_apply_op roomID conn subs op :
  membership (apply_op roomID conn subs op)
  = membership_op roomID conn (membership subs) op.
Proof.
  destruct op; simpl; [apply membership_register | apply membership_deregister].
Qed.

Lemma membership_run_ops roomID conn ops subs :
  membership (run_ops roomID conn ops subs)
  = fold_left (membership_op roomID conn) ops (membership subs).
Proof.
  unfold run_ops. revert subs.
  induction ops as [|op ops IH]; intros subs; simpl; [done|].
  by rewrite IH, membership_apply_op.
Qed.

Lemma membership_op_repeat roomID conn M a b :
  same_call a b = true ->
  membership_op roomID conn (membership_op roomID conn M a) b
  = membership_op roomID conn M a.
Proof.
  destruct a, b; simpl; try discriminate; intros _;
    [apply join_room_twice | apply leave_room_twice].
Qed.

Lemma fold_collapse_after roomID conn ops prev M :
  fold_left (membership_op roomID conn) (collapse_after prev ops)
            (membership_op roomID conn M prev)
  = fold_left (membership_op roomID conn) ops (membership_op roomID conn M prev).
Proof.
  revert prev M. induction ops as [|op ops IH]; intros prev M; simpl; [done|].
  destruct (same_call prev op) eqn:E.
  - rewrite IH. by rewrite membership_op_repeat.
  - simpl. apply IH.
Qed.

Lemma deregister_absent subs roomID conn :
  conn ∉ default ∅ (membership subs !! roomID) ->
  deregister subs roomID conn = subs.
Proof.
  unfold deregister, membership. rewrite lookup_fmap.
  destruct (subs !! roomID) as [room|] eqn:E; simpl; [|done].
  intros Hn. rewrite delete_id; [by apply insert_id|].
  by apply not_elem_of_dom.
Qed.

Lemma one_entry_after_insert (room : gmap (option positive) positive) conn cancel :
  length (filter (fun entry => entry.1 = conn) (map_to_list (<[conn := cancel]> room))) = 1%nat.
Proof.
  rewrite <- insert_delete_eq.
  rewrite map_to_list_insert by apply lookup_delete_eq.
  rewrite filter_cons_True by done. simpl. f_equal.
  apply length_zero_iff_nil.
  assert (Hall : Forall (fun entry => entry.1 ≠ conn) (map_to_list (delete conn room))).
  { apply Forall_forall. intros [k v] Hin%elem_of_map_to_list. simpl.
    intros ->. by rewrite lookup_delete_eq in Hin. }
  induction Hall as [|entry l Hne _ IH]; [done|].
  by rewrite filter_cons_False.
Qed.

(** C6. Over any sequence of registrations and deregistrations of one
    connection in one room, the membership the registry ends with is the
    one it ends with after the sequence is collapsed (every call that
    repeats the call before it dropped); deregistering a connection that is
    not a member changes nothing; and registering twice leaves the same
    membership as registering once, with one entry for the connection. *)
Theorem registry_collapse (roomID : string) (conn : option positive) :
  (forall ops subs,
      membership (run_ops roomID conn (collapse ops) subs)
      = membership (run_ops roomID conn ops subs))
  /\ (forall subs,
         conn ∉ default ∅ (membership subs !! roomID) ->
         deregister subs roomID conn = subs)
  /\ (forall subs cancel cancel',
         membership (register (register subs roomID conn cancel) roomID conn cancel')
         = membership (register subs roomID conn cancel)
         /\ exists room,
             register (register subs roomID conn cancel) roomID conn cancel' !! roomID
             = Some room
             /\ length (filter (fun entry => entry.1 = conn) (map_to_list room)) = 1%nat).
Proof.
  split; [|split].
  - intros ops subs. rewrite !membership_run_ops.
    destruct ops as [|op ops]; simpl; [done|].
    apply fold_collapse_after.
  - intros subs. apply deregister_absent.
  - intros subs cancel cancel'. split.
    + by rewrite !membership_register, join_room_twice.
    + rewrite (register_insert (register _ _ _ _)). rewrite lookup_insert_eq.
      eexists. split; [done|]. apply one_entry_after_insert.
Qed.

End Registry.

(** ** notifyClients *)

Section Publish.
Context `{Env}.

Lemma range_order_empty : range_order ∅ = [].
Proof.
  apply Permutation_nil_r. rewrite range_order_perm. by rewrite map_to_list_empty.
Qed.

Lemma range_order_singleton conn cancel :
  range_order {[conn := cancel]} = [(conn, cancel)].
Proof.
  apply Permutation_singleton_r. rewrite range_order_perm.
  by rewrite map_to_list_singleton.
Qed.

Lemma elem_of_range_order (subs : gmap (option positive) positive) conn cancel :
  (conn, cancel) ∈ range_order subs <-> subs !! conn = Some cancel.
Proof. rewrite range_order_perm. apply elem_of_map_to_list. Qed.

Lemma live_prefix_elem entries (entry : option positive * positive) :
  entry ∈ live_prefix entries -> entry ∈ entries.
Proof.
  induction entries as [|[[p|] cancel] rest IH]; simpl; intros Hin.
  - done.
  - apply elem_of_cons in Hin as [->|Hin]; apply elem_of_cons; [by left|right; auto].
  - by apply elem_of_nil in Hin.
Qed.

Lemma live_prefix_all entries :
  None ∉ entries.*1 -> live_prefix entries = entries /\ loop_flow entries = Next tt.
Proof.
  induction entries as [|[[p|] cancel] rest IH]; simpl; intros Hnil.
  - done.
  - apply not_elem_of_cons in Hnil as [_ Hnil].
    destruct (IH Hnil) as [-> ->]. done.
  - exfalso. apply Hnil. apply elem_of_cons. by left.
Qed.

Lemma loop_flow_cases entries :
  loop_flow entries = Next tt \/ loop_flow entries = Panic nil_dereference.
Proof.
  induction entries as [|[[p|] cancel] rest IH]; simpl; [by left|done|by right].
Qed.

Lemma send_loop_run msg entries subs cancelled0 wire0 store0 :
  let w := mkWorld subs cancelled0 wire0 store0 in
  send_loop msg entries w
  = (loop_flow entries,
     mkWorld subs (cancelled_by w (live_prefix entries)) wire0 store0,
     flat_map (send_effects w msg) (live_prefix entries)).
Proof.
  revert cancelled0.
  induction entries as [|[[p|] cancel] rest IH]; intros cancelled0 w.
  - reflexivity.
  - change (send_loop msg ((Some p, cancel) :: rest) w)
      with (bind (bind (conn_WriteJSON (Some p) msg) (fun err =>
                    match err with
                    | Some err =>
                        bind (slog_Error "failed to send message to client" (error_attr err))
                             (fun _ => call_cancel cancel)
                    | None => ret tt
                    end))
                 (fun _ => send_loop msg rest) w).
    unfold bind, conn_WriteJSON, slog_Error, emit, call_cancel, ret, send_effects,
      cancelled_by. subst w. simpl.
    destruct (wire0 (Some p)) as [err|] eqn:E; simpl.
    + rewrite IH. simpl. unfold send_effects, cancelled_by. simpl.
      destruct (loop_flow rest); reflexivity.
    + rewrite IH. simpl. unfold send_effects, cancelled_by. simpl.
      destruct (loop_flow rest); reflexivity.
  - reflexivity.
Qed.

Lemma notifyClients_unfold msg :
  notifyClients msg
  = func (bind mu_Lock (fun _ =>
      defer mu_Unlock (bind get_subscribers (fun h_subscribers =>
        match h_subscribers !! schema.Message.RoomID msg with
        | None => return_
        | Some room =>
            if decide (size room = 0%nat) then return_
            else send_loop msg (range_order room)
        end)))).
Proof. reflexivity. Qed.

Lemma notifyClients_run msg (w : World) :
  notifyClients msg w
  = (loop_flow (room_entries w (schema.Message.RoomID msg)),
     mkWorld (subscribers w)
             (cancelled_by w (visited w (schema.Message.RoomID msg)))
             (wire w) (store w),
     EMuLock :: flat_map (send_effects w msg)
                         (visited w (schema.Message.RoomID msg))
       ++ [EMuUnlock]).
Proof.
  destruct w as [subs cancelled0 wire0 store0].
  rewrite notifyClients_unfold.
  unfold visited, room_entries, func, defer, bind, mu_Lock, mu_Unlock,
    get_subscribers, emit, return_. simpl.
  destruct (subs !! schema.Message.RoomID msg) as [room|] eqn:E; simpl.
  - destruct (decide (size room = 0%nat)) as [Hz|Hnz].
    + apply map_size_empty_iff in Hz. subst room.
      rewrite range_order_empty. reflexivity.
    + rewrite send_loop_run. simpl.
      destruct (loop_flow_cases (range_order room)) as [-> | ->]; reflexivity.
  - rewrite range_order_empty. reflexivity.
Qed.

(** A room none of whose registered connections is nil is gone through
    whole, and the run returns. *)
Lemma visited_all (w : World) roomID :
  cancel_of (subscribers w) roomID None = None ->
  visited w roomID = room_entries w roomID
  /\ loop_flow (room_entries w roomID) = Next tt.
Proof.
  intros Hnil. unfold visited. apply live_prefix_all. intros Hin.
  apply list_elem_of_fmap in Hin as ([conn cancel] & Heq & Hin). simpl in Heq. subst conn.
  unfold room_entries, cancel_of in *. apply elem_of_range_order in Hin.
  destruct (subscribers w !! roomID); simpl in *.
  - by rewrite Hin in Hnil.
  - by rewrite lookup_empty in Hin.
Qed.

Lemma visited_elem (w : World) roomID conn cancel :
  (conn, cancel) ∈ visited w roomID ->
  cancel_of (subscribers w) roomID conn = Some cancel.
Proof.
  intros Hin%live_prefix_elem. unfold room_entries, cancel_of in *.
  apply elem_of_range_order in Hin.
  destruct (subscribers w !! roomID); simpl in *; [done|].
  by rewrite lookup_empty in Hin.
Qed.

Lemma cancelled_by_mono (w : World) entries cancel :
  cancel ∈ cancelled w -> cancel ∈ cancelled_by w entries.
Proof.
  unfold cancelled_by. generalize (cancelled w).
  induction entries as [|entry rest IH]; intros acc Hin; simpl; [done|].
  apply IH. destruct (wire w entry.1); set_solver.
Qed.


(** Every write in the loop's effects goes to a connection of an entry. *)
Lemma write_in_sends (w : World) msg entries conn frame err :
  EWriteJSON conn frame err ∈ flat_map (send_effects w msg) entries ->
  frame = Json.to_json msg /\ exists cancel, (conn, cancel) ∈ entries.
Proof.
  intros Hin. apply list_elem_of_In, in_flat_map in Hin as ([c cancel] & Hin & He).
  apply list_elem_of_In in Hin.
  unfold send_effects in He. simpl in He.
  destruct (wire w c); simpl in He;
    repeat (destruct He as [He|He]; [inversion He; subst; eauto|]); contradiction.
Qed.

Lemma sends_not_mu (w : World) msg entries :
  Forall not_mu (flat_map (send_effects w msg) entries).
Proof.
  induction entries as [|entry rest IH]; simpl; [constructor|].
  apply Forall_app. split; [|done].
  unfold send_effects. destruct (wire w entry.1); repeat constructor.
Qed.

Lemma mu_held_not_mu held tr : Forall not_mu tr -> mu_held held tr = held.
Proof.
  unfold mu_held. revert held.
  induction tr as [|e tr IH]; intros held Hall; simpl; [done|].
  inversion Hall as [|? ? He Htr]; subst. rewrite IH by done.
  destruct e; simpl in He; try done.
Qed.

Lemma received_nil conn (tr : list Effect) :
  (forall frame, EWriteJSON conn frame None ∉ tr) -> received conn tr = [].
Proof.
  induction tr as [|e tr IH]; intros Hnone; [done|].
  assert (received conn tr = []) as Htr.
  { apply IH. intros frame Hin. apply (Hnone frame). apply elem_of_cons. by right. }
  destruct e as [| |conn' frame [err|]| | | | |]; try exact Htr.
  destruct (decide (conn' = conn)) as [->|Hne].
  - exfalso. apply (Hnone frame). apply elem_of_cons. by left.
  - unfold received. simpl. destruct (decide (conn' = conn)); [done|]. exact Htr.
Qed.

End Publish.

Section PublishClaims.
Context `{Env}.

(** C7. When the event's room has no entry in the registry, or an entry
    with no connection in it, [notifyClients] returns normally, the effects
    of the run are the lock and the unlock alone (no write to any
    connection), and the world, the registry with it, is what it was. *)
Theorem notifyClients_no_subscribers (msg : schema.Message.t) (w : World) :
  subscribers w !! schema.Message.RoomID msg = None
  \/ subscribers w !! schema.Message.RoomID msg = Some ∅ ->
  notifyClients msg w = (Next tt, w, [EMuLock; EMuUnlock]).
Proof.
  intros Hroom. rewrite notifyClients_run. unfold visited, room_entries.
  assert (default ∅ (subscribers w !! schema.Message.RoomID msg) = ∅) as ->.
  { by destruct Hroom as [-> | ->]. }
  rewrite range_order_empty. destruct w. reflexivity.
Qed.


(** C5. A connection that is not registered under the event's room is not
    written to by [notifyClients], and so receives nothing from it. *)
Theorem notifyClients_other_room (msg : schema.Message.t) (w : World)
    (conn : option positive) :
  (forall room, subscribers w !! schema.Message.RoomID msg = Some room ->
                room !! conn = None) ->
  received conn (effects (notifyClients msg) w) = []
  /\ forall frame err, EWriteJSON conn frame err ∉ effects (notifyClients msg) w.
Proof.
  intros Hnot.
  assert (forall frame err, EWriteJSON conn frame err ∉ effects (notifyClients msg) w)
    as Hnone.
  { intros frame err Hin. unfold effects in Hin. rewrite notifyClients_run in Hin.
    simpl in Hin. apply elem_of_cons in Hin as [Hin|Hin]; [discriminate|].
    apply elem_of_app in Hin as [Hin|Hin].
    - apply write_in_sends in Hin as (_ & cancel & Hin).
      apply visited_elem in Hin. unfold cancel_of in Hin.
      destruct (subscribers w !! schema.Message.RoomID msg) as [room|] eqn:E;
        simpl in Hin; [|discriminate].
      by rewrite (Hnot room) in Hin.
    - apply list_elem_of_singleton in Hin. discriminate. }
  split; [|done]. apply received_nil. intros frame. apply Hnone.
Qed.

(** C2 (as the code has it). [notifyClients] holds the registry's lock
    through the whole fan-out: the effects of a run are the lock, then the
    fan-out (the writes with their log lines and cancellations, and no
    lock operation among them), then the unlock, which is deferred and so
    comes last however the fan-out ends. Every write to a connection is
    therefore made with the lock taken on entry still held. *)
Theorem notifyClients_writes_under_lock (msg : schema.Message.t) (w : World) :
  exists fanout,
    effects (notifyClients msg) w = EMuLock :: fanout ++ [EMuUnlock]
    /\ Forall not_mu fanout
    /\ forall before conn frame err rest,
         effects (notifyClients msg) w = before ++ EWriteJSON conn frame err :: rest ->
         mu_held false before = true
         /\ exists fanout_before fanout_rest,
              before = EMuLock :: fanout_before
              /\ rest = fanout_rest ++ [EMuUnlock]
              /\ fanout = fanout_before ++ EWriteJSON conn frame err :: fanout_rest.
Proof.
  unfold effects. rewrite notifyClients_run. simpl.
  set (sends := flat_map (send_effects w msg) (visited w (schema.Message.RoomID msg))).
  pose proof (sends_not_mu w msg (visited w (schema.Message.RoomID msg))) as Hsends.
  fold sends in Hsends. exists sends. split; [done|]. split; [done|].
  intros before conn frame err rest Heq.
  destruct before as [|e before]; [discriminate|].
  simpl in Heq. injection Heq as He Heq. subst e.
  destruct rest as [|last rest _] using rev_ind.
  - apply app_inj_tail in Heq as [_ Heq]. discriminate.
  - rewrite app_comm_cons, app_assoc in Heq.
    apply app_inj_tail in Heq as [Heq <-].
    split.
    + rewrite Heq in Hsends. apply Forall_app in Hsends as [Hbefore _].
      change (mu_held false (EMuLock :: before)) with (mu_held true before).
      by apply mu_held_not_mu.
    + by exists before, rest.
Qed.

End PublishClaims.

(** ** The wire format *)

Section WireFormat.
Context `{Env}.

Lemma Message_to_json_eq (msg : schema.Message.t) :
  Json.to_json msg
  = Json.Object [("kind", Json.Str (schema.Message.Kind msg));
                 ("value", Json.to_json (schema.Message.Value msg))].
Proof. reflexivity. Qed.

(** C8. The JSON document of an event has the members [kind] and [value]
    and no other, it is the same whatever the event's room is, and it is
    the frame of every write [notifyClients] makes for the event. *)
Theorem payload_kind_and_value_only (msg : schema.Message.t) :
  Json.keys (Json.to_json msg) = ["kind"; "value"]
  /\ (forall roomID,
         Json.to_json (schema.Message.mk (schema.Message.Kind msg)
                                         (schema.Message.Value msg) roomID)
         = Json.to_json msg)
  /\ (forall (w : World) conn frame err,
         EWriteJSON conn frame err ∈ effects (notifyClients msg) w ->
         frame = Json.to_json msg).
Proof.
  split; [reflexivity|]. split; [reflexivity|].
  intros w conn frame err Hin. unfold effects in Hin.
  rewrite notifyClients_run in Hin. simpl in Hin.
  apply elem_of_cons in Hin as [Hin|Hin]; [discriminate|].
  apply elem_of_app in Hin as [Hin|Hin].
  - by apply write_in_sends in Hin as [-> _].
  - apply list_elem_of_singleton in Hin. discriminate.
Qed.

(** C4 (as the code has it). When the one subscriber of a room is sent a
    [message_created] event made with message id [m1] and text [hi], it
    receives one frame, whose JSON text is
    [{"kind":"message_created","value":{"ID":"m1","Message":"hi"}}]: the
    members of the value object carry the Go field names [ID] and
    [Message]. The subscriber's connection is a connection [Some p]; a
    send to the nil pointer delivers nothing. *)
Theorem created_frame_text (w : World) (roomID : string)
    (p : positive) (cancel : positive) :
  subscribers w !! roomID = Some {[Some p := cancel]} ->
  wire w (Some p) = None ->
  List.map (Json.marshal true)
    (received (Some p)
       (effects (notifyClients
                   (schema.Message.mk KindMessageCreated
                      (schema.Any (schema.MessageCreatedEvent.mk "m1" "hi")) roomID)) w))
  = [Json.text "{'kind':'message_created','value':{'ID':'m1','Message':'hi'}}"].
Proof.
  intros Hroom Hwire. unfold effects. rewrite notifyClients_run. simpl.
  unfold visited, room_entries. rewrite Hroom. simpl. rewrite range_order_singleton. simpl.
  unfold send_effects. simpl. rewrite Hwire. unfold received. simpl.
  destruct (decide (Some p = Some p)); [|done]. simpl. vm_compute. reflexivity.
Qed.

End WireFormat.

(** ** handleSubscribe *)

Section Subscribe.
Context `{Env}.

(** C1 (what the code does). When the upgrade fails the handler logs a
    warning and answers 400, but it does not return: it goes on with a nil
    connection, registers it under the room, blocks on the new context, and
    once that is done deregisters and closes the nil connection. *)
Theorem handleSubscribe_upgrade_failure (c : gin_Context) (w : World)
    (uri : schema.GetRoomByIDInput.t) (roomID : UUID) (room : Room) (err : error) :
  ShouldBindUri_GetRoomByIDInput c = OK uri ->
  MustParse (schema.GetRoomByIDInput.RoomID uri) = Some roomID ->
  GetRoom roomID (store w) = OK room ->
  Upgrade c = Failed err ->
  exists rest,
    handleSubscribe c w
    = (Next (AwaitDone (WithCancel c) rest),
       mkWorld (register (subscribers w) (UUID_String roomID) None (WithCancel c))
               (cancelled w) (wire w) (store w),
       [ESlog LevelWarn "failed to upgrade connection" (error_attr err);
        EPureJSON StatusBadRequest (Json.Str "something went wrong");
        EMuLock;
        ESlog LevelInfo "new client connected"
              [("room_id", UUID_String roomID); ("client_ip", ClientIP c)];
        EMuUnlock])
    /\ (register (subscribers w) (UUID_String roomID) None (WithCancel c)
          !! UUID_String roomID) ≫= (.!! None) = Some (WithCancel c)
    /\ forall w', effects rest w' = [EMuLock; EMuUnlock; EClose None].
Proof.
  intros Hbind Hparse Hroom Hup. eexists.
  destruct w as [subs cancelled0 wire0 store0]. simpl in Hroom.
  unfold handleSubscribe, uuid_MustParse, require_room, check, query, bind, ret.
  rewrite Hbind. simpl. rewrite Hparse. simpl. rewrite Hroom. simpl.
  rewrite Hup. simpl.
  split; [reflexivity|]. split.
  - rewrite register_insert, lookup_insert_eq. simpl. apply lookup_insert_eq.
  - intros w'. reflexivity.
Qed.

End Subscribe.

(** ** The request handlers *)

Section Handlers.
Context `{Env}.

Lemma detached_ret {A} (a : A) : detached (ret a).
Proof. intros w w' Hs. unfold flow, effects, after. simpl. auto. Qed.

Lemma detached_return {A} : detached (@return_ _ A).
Proof. intros w w' Hs. unfold flow, effects, after. simpl. auto. Qed.

Lemma detached_panic {A} reason : detached (@panic _ A reason).
Proof. intros w w' Hs. unfold flow, effects, after. simpl. auto. Qed.

Lemma detached_emit e : handler_effect e -> detached (emit e).
Proof. intros He w w' Hs. unfold flow, effects, after. simpl. auto. Qed.

Lemma detached_query {T} (q : Store -> T) : detached (query q).
Proof. intros w w' Hs. unfold flow, effects, after, query. simpl. rewrite Hs. auto. Qed.

Lemma detached_exec {T} (q : Store -> T * Store) : detached (exec q).
Proof.
  intros w w' Hs. unfold flow, effects, after, exec. rewrite Hs.
  destruct (q (store w')). simpl. auto.
Qed.

Lemma detached_bind {A B} (m : M A) (k : A -> M B) :
  detached m -> (forall a, detached (k a)) -> detached (bind m k).
Proof.
  intros Hm Hk w w' Hs. specialize (Hm w w' Hs).
  unfold flow, effects, after, bind in *.
  destruct (m w) as [[f w1] t1], (m w') as [[f' w1'] t1']. simpl in Hm.
  destruct Hm as (<- & <- & Hs1 & Hall).
  destruct f as [a| |reason]; simpl; auto.
  specialize (Hk a w1 w1' Hs1). unfold flow, effects, after in Hk.
  destruct (k a w1) as [[r w2] t2], (k a w1') as [[r' w2'] t2']. simpl in *.
  destruct Hk as (<- & <- & Hs2 & Hall2).
  repeat split; auto. by apply Forall_app.
Qed.

Lemma detached_func (body : M unit) : detached body -> detached (func body).
Proof.
  intros Hb w w' Hs. specialize (Hb w w' Hs).
  unfold flow, effects, after, func in *.
  destruct (body w) as [[f w1] t1], (body w') as [[f' w1'] t1']. simpl in Hb.
  destruct Hb as (<- & <- & Hs1 & Hall).
  destruct f; simpl; auto.
Qed.

Lemma detached_check {T} (call : M (Result T)) (on_err : error -> M unit) :
  detached call -> (forall err, detached (on_err err)) -> detached (check call on_err).
Proof.
  intros Hc He. unfold check. apply detached_bind; [done|].
  intros [v|err]; [apply detached_ret|].
  apply detached_bind; [apply He|]. intros _. apply detached_return.
Qed.

Lemma detached_PureJSON {T} `{Json.Marshaler T} status (obj : T) :
  detached (c_PureJSON status obj).
Proof. by apply detached_emit. Qed.

Lemma detached_slog_Error msg attrs : detached (slog_Error msg attrs).
Proof. by apply detached_emit. Qed.

Lemma detached_go msg : detached (go_notifyClients msg).
Proof. by apply detached_emit. Qed.

Lemma detached_MustParse s : detached (uuid_MustParse s).
Proof.
  unfold uuid_MustParse. destruct (MustParse s); [apply detached_ret|apply detached_panic].
Qed.

Lemma detached_bind_or_400 {T} (bound : Result T) : detached (bind_or_400 bound).
Proof.
  unfold bind_or_400. apply detached_check; [apply detached_ret|].
  intros err. apply detached_PureJSON.
Qed.

Lemma detached_require_room roomID : detached (require_room roomID).
Proof.
  unfold require_room. apply detached_check; [apply detached_query|].
  intros err. destruct (is_ErrNoRows err); [apply detached_PureJSON|].
  apply detached_bind; [apply detached_slog_Error|]. intros _. apply detached_PureJSON.
Qed.

Lemma detached_require_message messageID : detached (require_message messageID).
Proof.
  unfold require_message. apply detached_check; [apply detached_query|].
  intros err. destruct (is_ErrNoRows err); [apply detached_PureJSON|].
  apply detached_bind; [apply detached_slog_Error|]. intros _. apply detached_PureJSON.
Qed.

Create HintDb detached.
#[local] Hint Resolve detached_ret detached_return detached_panic detached_query
  detached_exec detached_PureJSON detached_slog_Error detached_go detached_MustParse
  detached_bind_or_400 detached_require_room detached_require_message : detached.

Ltac detached_steps :=
  repeat first
    [ apply detached_func
    | apply detached_bind; [|intros ?]
    | apply detached_check; [|intros ?]
    | solve [auto with detached]
    | match goal with
      | |- detached (match ?x with _ => _ end) => destruct x
      end ].

Lemma detached_handleCreateRoomMessage c : detached (handleCreateRoomMessage c).
Proof. unfold handleCreateRoomMessage. detached_steps. Qed.

Lemma detached_handleReactToMessage c : detached (handleReactToMessage c).
Proof. unfold handleReactToMessage. detached_steps. Qed.

Lemma detached_handleRemoveReactionFromMessage c :
  detached (handleRemoveReactionFromMessage c).
Proof. unfold handleRemoveReactionFromMessage. detached_steps. Qed.

Lemma detached_handleMarkMessageAsAnswered c : detached (handleMarkMessageAsAnswered c).
Proof. unfold handleMarkMessageAsAnswered. detached_steps. Qed.

Lemma notifyClients_no_response msg (w : World) :
  responses (effects (notifyClients msg) w) = [].
Proof.
  unfold effects. rewrite notifyClients_run. simpl.
  unfold responses. rewrite omap_app. simpl. rewrite app_nil_r.
  induction (visited w (schema.Message.RoomID msg)) as [|entry rest IH]; [done|].
  simpl. rewrite omap_app, IH, app_nil_r.
  unfold send_effects. by destruct (wire w entry.1).
Qed.

Lemma detached_write_handlers c :
  Forall (fun handler => detached (handler c)) write_handlers.
Proof.
  unfold write_handlers.
  constructor; [apply detached_handleCreateRoomMessage|].
  constructor; [apply detached_handleReactToMessage|].
  constructor; [apply detached_handleRemoveReactionFromMessage|].
  constructor; [apply detached_handleMarkMessageAsAnswered|].
  constructor.
Qed.

(** What a successful create-message request does: it starts the fan-out
    in a goroutine and answers 201 with the new message's id. *)
Lemma handleCreateRoomMessage_created c (w : World) uri roomID room body messageID store1 :
  ShouldBindUri_GetRoomByIDInput c = OK uri ->
  MustParse (schema.GetRoomByIDInput.RoomID uri) = Some roomID ->
  GetRoom roomID (store w) = OK room ->
  ShouldBindJSON_CreateMessageInput c = OK body ->
  InsertMessage (pgstore.mkInsertMessageParams roomID (schema.CreateMessageInput.Message body))
                (store w) = (OK messageID, store1) ->
  handleCreateRoomMessage c w
  = (Next tt,
     mkWorld (subscribers w) (cancelled w) (wire w) store1,
     [EGo (schema.Message.mk KindMessageCreated
             (schema.Any (schema.MessageCreatedEvent.mk (UUID_String messageID)
                            (schema.CreateMessageInput.Message body)))
             (UUID_String roomID));
      EPureJSON StatusCreated (Json.Object [("id", Json.Str (UUID_String messageID))])]).
Proof.
  intros Hbind Hparse Hroom Hbody Hins.
  destruct w as [subs cancelled0 wire0 store0]. simpl in *.
  unfold handleCreateRoomMessage, bind_or_400, uuid_MustParse, require_room, check,
    query, exec, func, bind, ret.
  rewrite Hbind. simpl. rewrite Hparse. simpl. rewrite Hroom. simpl.
  rewrite Hbody. simpl. rewrite Hins. reflexivity.
Qed.

Lemma handleReactToMessage_reacted c (w : World) roomID messageID count store1 :
  message_lookups c w roomID messageID ->
  ReactToMessage messageID (store w) = (OK count, store1) ->
  effects (handleReactToMessage c) w
  = [EGo (reaction_event KindMessageReactionIncreased roomID messageID count);
     EPureJSON StatusOK (Json.Object [("count", Json.Number count)])].
Proof.
  intros (uri & room & message & Hbind & Hparse & Hroom & Hparse' & Hmsg) Hreact.
  destruct w as [subs cancelled0 wire0 store0]. simpl in *.
  unfold effects, handleReactToMessage, bind_or_400, uuid_MustParse, require_room,
    require_message, check, query, exec, func, bind, ret.
  rewrite Hbind. simpl. rewrite Hparse. simpl. rewrite Hroom. simpl.
  rewrite Hparse'. simpl. rewrite Hmsg. simpl. rewrite Hreact. reflexivity.
Qed.

Lemma handleRemoveReactionFromMessage_removed c (w : World) roomID messageID count store1 :
  message_lookups c w roomID messageID ->
  RemoveReactionFromMessage messageID (store w) = (OK count, store1) ->
  effects (handleRemoveReactionFromMessage c) w
  = [EGo (reaction_event KindMessageReactionDecreased roomID messageID count);
     EPureJSON StatusOK (Json.Object [("count", Json.Number count)])].
Proof.
  intros (uri & room & message & Hbind & Hparse & Hroom & Hparse' & Hmsg) Hreact.
  destruct w as [subs cancelled0 wire0 store0]. simpl in *.
  unfold effects, handleRemoveReactionFromMessage, bind_or_400, uuid_MustParse,
    require_room, require_message, check, query, exec, func, bind, ret.
  rewrite Hbind. simpl. rewrite Hparse. simpl. rewrite Hroom. simpl.
  rewrite Hparse'. simpl. rewrite Hmsg. simpl. rewrite Hreact. reflexivity.
Qed.

Lemma handleMarkMessageAsAnswered_marked c (w : World) roomID messageID store1 :
  message_lookups c w roomID messageID ->
  MarkMessageAsAnswered messageID (store w) = (None, store1) ->
  effects (handleMarkMessageAsAnswered c) w
  = [EGo (schema.Message.mk KindMessageAnswered
            (schema.Any (schema.MessageAnsweredEvent.mk (UUID_String messageID)))
            (UUID_String roomID));
     EPureJSON StatusOK Json.Null].
Proof.
  intros (uri & room & message & Hbind & Hparse & Hroom & Hparse' & Hmsg) Hmark.
  destruct w as [subs cancelled0 wire0 store0]. simpl in *.
  unfold effects, handleMarkMessageAsAnswered, bind_or_400, uuid_MustParse,
    require_room, require_message, check, query, exec, func, bind, ret.
  rewrite Hbind. simpl. rewrite Hparse. simpl. rewrite Hroom. simpl.
  rewrite Hparse'. simpl. rewrite Hmsg. simpl. rewrite Hmark. reflexivity.
Qed.

Lemma detached_effects {A} (m : M A) (w w' : World) :
  detached m -> store w = store w' -> effects m w' = effects m w.
Proof. intros Hd Hs. by destruct (Hd w w' Hs) as (_ & <- & _). Qed.

(** C9. For the four write handlers. On every request, the responses a
    handler writes are the same in any two worlds that hold the same
    database (whatever the registry and the state of the connections), and
    the handler itself takes no lock and writes to no connection: it only
    logs, starts the fan-out with [go] and responds. On a successful
    request (the lookups and the write query succeed) the handler's effects
    are, in both worlds, the [go] statement followed at once by the
    response, whose status and body are fixed by what the query returned:
    201 and the new message's id, 200 and the new count, 200 and [null].
    And a run of the fan-out writes no response, however it ends. *)
Theorem write_response_detached (c : gin_Context) (w w' : World) :
  store w = store w' ->
  Forall (fun handler =>
            responses (effects (handler c) w) = responses (effects (handler c) w')
            /\ Forall handler_effect (effects (handler c) w))
         write_handlers
  /\ (forall uri roomID room body messageID store1,
         ShouldBindUri_GetRoomByIDInput c = OK uri ->
         MustParse (schema.GetRoomByIDInput.RoomID uri) = Some roomID ->
         GetRoom roomID (store w) = OK room ->
         ShouldBindJSON_CreateMessageInput c = OK body ->
         InsertMessage (pgstore.mkInsertMessageParams roomID
                          (schema.CreateMessageInput.Message body)) (store w)
         = (OK messageID, store1) ->
         let trace :=
           [EGo (schema.Message.mk KindMessageCreated
                   (schema.Any (schema.MessageCreatedEvent.mk (UUID_String messageID)
                                  (schema.CreateMessageInput.Message body)))
                   (UUID_String roomID));
            EPureJSON StatusCreated
              (Json.Object [("id", Json.Str (UUID_String messageID))])] in
         effects (handleCreateRoomMessage c) w = trace
         /\ effects (handleCreateRoomMessage c) w' = trace)
  /\ (forall roomID messageID,
         message_lookups c w roomID messageID ->
         (forall count store1,
             ReactToMessage messageID (store w) = (OK count, store1) ->
             let trace :=
               [EGo (reaction_event KindMessageReactionIncreased roomID messageID count);
                EPureJSON StatusOK (Json.Object [("count", Json.Number count)])] in
             effects (handleReactToMessage c) w = trace
             /\ effects (handleReactToMessage c) w' = trace)
         /\ (forall count store1,
                RemoveReactionFromMessage messageID (store w) = (OK count, store1) ->
                let trace :=
                  [EGo (reaction_event KindMessageReactionDecreased roomID messageID count);
                   EPureJSON StatusOK (Json.Object [("count", Json.Number count)])] in
                effects (handleRemoveReactionFromMessage c) w = trace
                /\ effects (handleRemoveReactionFromMessage c) w' = trace)
         /\ (forall store1,
                MarkMessageAsAnswered messageID (store w) = (None, store1) ->
                let trace :=
                  [EGo (schema.Message.mk KindMessageAnswered
                          (schema.Any (schema.MessageAnsweredEvent.mk
                                         (UUID_String messageID)))
                          (UUID_String roomID));
                   EPureJSON StatusOK Json.Null] in
                effects (handleMarkMessageAsAnswered c) w = trace
                /\ effects (handleMarkMessageAsAnswered c) w' = trace))
  /\ (forall msg (fanout_world : World),
         responses (effects (notifyClients msg) fanout_world) = []).
Proof.
  intros Hs. split; [|split; [|split]].
  - eapply Forall_impl; [apply detached_write_handlers|].
    intros handler Hd. simpl in Hd. destruct (Hd w w' Hs) as (_ & He & _ & Hall).
    split; [by rewrite He|done].
  - intros uri roomID room body messageID store1 Hbind Hparse Hroom Hbody Hins trace.
    assert (effects (handleCreateRoomMessage c) w = trace) as He.
    { unfold effects.
      by rewrite (handleCreateRoomMessage_created c w uri roomID room body messageID store1). }
    split; [done|].
    by rewrite (detached_effects _ w w' (detached_handleCreateRoomMessage c) Hs).
  - intros roomID messageID Hlook. split; [|split].
    + intros count store1 Hq trace.
      pose proof (handleReactToMessage_reacted c w _ _ _ _ Hlook Hq) as He.
      split; [done|].
      by rewrite (detached_effects _ w w' (detached_handleReactToMessage c) Hs).
    + intros count store1 Hq trace.
      pose proof (handleRemoveReactionFromMessage_removed c w _ _ _ _ Hlook Hq) as He.
      split; [done|].
      by rewrite (detached_effects _ w w' (detached_handleRemoveReactionFromMessage c) Hs).
    + intros store1 Hq trace.
      pose proof (handleMarkMessageAsAnswered_marked c w _ _ _ Hlook Hq) as He.
      split; [done|].
      by rewrite (detached_effects _ w w' (detached_handleMarkMessageAsAnswered c) Hs).
  - intros msg fanout_world. apply notifyClients_no_response.
Qed.

(** C10. A successful get-message request answers 200 with an object whose
    member [theme] is the message's text (there is no member [message]);
    a successful list-room-messages request answers 200 with the array of
    such objects, one for every message the query returned. *)
Theorem message_text_under_theme (c : gin_Context) (w : World) :
  (forall uri roomID room messageID message,
      ShouldBindUri_GetMessageByIDInput c = OK uri ->
      MustParse (schema.GetMessageByIDInput.RoomID uri) = Some roomID ->
      GetRoom roomID (store w) = OK room ->
      MustParse (schema.GetMessageByIDInput.MessageID uri) = Some messageID ->
      GetMessage messageID (store w) = OK message ->
      effects (handleGetRoomMessage c) w
      = [EPureJSON StatusOK
           (Json.Object [("id", Json.Str (UUID_String messageID));
                         ("theme", Json.Str (pgstore.Message_ message));
                         ("reaction_count", Json.Number (pgstore.ReactionCount message));
                         ("answered", Json.Bool (pgstore.Answered message))])])
  /\ (forall uri roomID room messages,
         ShouldBindUri_GetRoomByIDInput c = OK uri ->
         MustParse (schema.GetRoomByIDInput.RoomID uri) = Some roomID ->
         GetRoom roomID (store w) = OK room ->
         GetRoomMessages roomID (store w) = OK messages ->
         effects (handleGetRoomMessages c) w
         = [EPureJSON StatusOK (Json.Array (List.map message_object messages))]
         /\ Forall (fun m => Json.member "theme" (message_object m)
                             = Some (Json.Str (pgstore.Message_ m))
                             /\ Json.member "message" (message_object m) = None)
                   messages).
Proof.
  destruct w as [subs cancelled0 wire0 store0]. simpl. split.
  - intros uri roomID room messageID message Hbind Hparse Hroom Hparse' Hmsg.
    unfold effects, handleGetRoomMessage, bind_or_400, uuid_MustParse, require_room,
      require_message, check, query, func, bind, ret.
    rewrite Hbind. simpl. rewrite Hparse. simpl. rewrite Hroom. simpl.
    rewrite Hparse'. simpl. rewrite Hmsg. reflexivity.
  - intros uri roomID room messages Hbind Hparse Hroom Hmsgs. split.
    + unfold effects, handleGetRoomMessages, bind_or_400, uuid_MustParse, require_room,
        check, query, func, bind, ret.
      rewrite Hbind. simpl. rewrite Hparse. simpl. rewrite Hroom. simpl.
      rewrite Hmsgs. simpl. destruct messages as [|m rest]; [reflexivity|].
      simpl. unfold c_PureJSON, emit. simpl. do 3 f_equal.
      unfold Json.to_json, Json.slice_marshaler. simpl. f_equal.
      rewrite map_map. reflexivity.
    + apply Forall_forall. intros m _. split; reflexivity.
Qed.

End Handlers.

(** ** The properties at work on the in-memory collaborators *)

Section InMemory.
Import mem.

Example collapse_sample :
  collapse [Register 7; Register 8; Deregister; Deregister; Register 9]
  = [Register 7; Deregister; Register 9].
Proof. reflexivity. Qed.

Example notifyClients_world2 :
  effects (notifyClients (created_m1 "R")) world2
  = [EMuLock;
     EWriteJSON (Some 2%positive) frame_m1 (Some (ErrOther "broken pipe"));
     ESlog LevelError "failed to send message to client" [("error", "broken pipe")];
     ECancel 8;
     EWriteJSON (Some 1%positive) frame_m1 None;
     EMuUnlock].
Proof. vm_compute. reflexivity. Qed.

Lemma world1_room : subscribers world1 !! "R" = Some {[Some 1%positive := 7%positive]}.
Proof.
  reflexivity.
Qed.


(** A subscribe request for room [R] that is not a WebSocket handshake. *)
Definition plain_get : Request :=
  mkRequest "R" EmptyString (Failed (ErrOther "EOF")) "10.0.0.1"
            (Failed (ErrOther "websocket: the client is not using the websocket protocol"))
            3.

(** C1, on [plain_get]: the nil connection ends up registered under [R]. *)
Lemma handleSubscribe_upgrade_failure_witness :
  exists rest,
    handleSubscribe plain_get world0
    = (Next (AwaitDone 3%positive rest),
       mkWorld (register ∅ "R" None 3%positive) ∅ (wire world0) store0,
       [ESlog LevelWarn "failed to upgrade connection"
              [("error", "websocket: the client is not using the websocket protocol")];
        EPureJSON StatusBadRequest (Json.Str "something went wrong");
        EMuLock;
        ESlog LevelInfo "new client connected"
              [("room_id", "R"); ("client_ip", "10.0.0.1")];
        EMuUnlock])
    /\ (register ∅ "R" None 3%positive !! "R") ≫= (.!! None) = Some 3%positive
    /\ forall w', effects rest w' = [EMuLock; EMuUnlock; EClose None].
Proof.
  apply (@handleSubscribe_upgrade_failure env plain_get world0
           (schema.GetRoomByIDInput.mk "R") "R" "R"
           (ErrOther "websocket: the client is not using the websocket protocol"));
    reflexivity.
Defined.

(** The world [plain_get] leaves behind, with the nil connection in room
    [R]. The next event for [R] panics at the write to it (the deferred
    unlock still runs), and the session of the nil connection, once its
    context is done, deregisters it and panics in the deferred
    [conn.Close()]. *)
Definition world_nil : World := after (handleSubscribe plain_get) world0.

Example notifyClients_nil_connection :
  flow (notifyClients (created_m1 "R")) world_nil = Panic nil_dereference
  /\ effects (notifyClients (created_m1 "R")) world_nil = [EMuLock; EMuUnlock].
Proof. split; vm_compute; reflexivity. Qed.

Example leave_nil_connection :
  flow (handleSubscribe_leave "R" None) world_nil = Panic nil_dereference
  /\ effects (handleSubscribe_leave "R" None) world_nil = [EMuLock; EMuUnlock; EClose None]
  /\ cancel_of (subscribers (after (handleSubscribe_leave "R" None) world_nil)) "R" None
     = None.
Proof. repeat split; vm_compute; reflexivity. Qed.

(** C2 as claimed fails: with one subscriber, the write happens after the
    lock is taken and before it is released. *)
Lemma notifyClients_write_while_locked :
  effects (notifyClients (created_m1 "R")) world1
  = [EMuLock] ++ EWriteJSON (Some 1%positive) frame_m1 None :: [EMuUnlock]
  /\ mu_held false [EMuLock] = true.
Proof. split; [vm_compute|]; reflexivity. Qed.

Lemma notifyClients_writes_under_lock_witness :
  exists fanout,
    effects (notifyClients (created_m1 "R")) world2 = EMuLock :: fanout ++ [EMuUnlock]
    /\ Forall not_mu fanout
    /\ mu_held false
         [EMuLock;
          EWriteJSON (Some 2%positive) frame_m1 (Some (ErrOther "broken pipe"));
          ESlog LevelError "failed to send message to client" [("error", "broken pipe")];
          ECancel 8] = true.
Proof.
  destruct (@notifyClients_writes_under_lock env (created_m1 "R") world2)
    as (fanout & Heq & Hfanout & Hwrites).
  exists fanout. split; [exact Heq|]. split; [exact Hfanout|].
  refine (proj1 (Hwrites
                   [EMuLock;
                    EWriteJSON (Some 2%positive) frame_m1 (Some (ErrOther "broken pipe"));
                    ESlog LevelError "failed to send message to client"
                          [("error", "broken pipe")];
                    ECancel 8]
                   (Some 1%positive) frame_m1 None [EMuUnlock] _)).
  vm_compute. reflexivity.
Defined.


(** C4 as claimed fails: the frame's text is not the one with the members
    [id] and [message]. *)
Lemma created_frame_not_lowercase :
  List.map (Json.marshal true)
    (received (Some 1%positive) (effects (notifyClients (created_m1 "R")) world1))
  <> [Json.text "{'kind':'message_created','value':{'id':'m1','message':'hi'}}"].
Proof. vm_compute. discriminate. Qed.

Lemma created_frame_text_witness :
  List.map (Json.marshal true)
    (received (Some 1%positive) (effects (notifyClients (created_m1 "R")) world1))
  = [Json.text "{'kind':'message_created','value':{'ID':'m1','Message':'hi'}}"].
Proof.
  exact (@created_frame_text env world1 "R" 1%positive 7%positive
           world1_room eq_refl).
Defined.

(** C5, on a subscriber of [R1] and an event for [R2]. *)
Lemma notifyClients_other_room_witness :
  received (Some 1%positive) (effects (notifyClients (created_m1 "R2")) world_R1) = []
  /\ forall frame err,
       EWriteJSON (Some 1%positive) frame err
         ∉ effects (notifyClients (created_m1 "R2")) world_R1.
Proof.
  apply (@notifyClients_other_room env (created_m1 "R2") world_R1 (Some 1%positive)).
  intros room Hroom. vm_compute in Hroom. discriminate Hroom.
Defined.

(** C7, on a room that never had a subscriber and on one whose only
    subscriber has left. *)
Lemma notifyClients_no_subscribers_witness :
  notifyClients (created_m1 "R") world0 = (Next tt, world0, [EMuLock; EMuUnlock])
  /\ subscribers world_left !! "R" = Some ∅.
Proof.
  split.
  - apply (@notifyClients_no_subscribers env (created_m1 "R") world0).
    left. reflexivity.
  - reflexivity.
Defined.

Example notifyClients_world_left :
  effects (notifyClients (created_m1 "R")) world_left = [EMuLock; EMuUnlock].
Proof. vm_compute. reflexivity. Qed.

(** C9, on a request each of the four handlers serves, in a world with no
    subscriber and in one with a healthy and a broken subscriber: the same
    database, the same effects. *)
Lemma write_response_detached_witness :
  (effects (handleCreateRoomMessage write_m1) world_m1
   = [EGo (schema.Message.mk KindMessageCreated
             (schema.Any (schema.MessageCreatedEvent.mk "m2" "hello")) "R");
      EPureJSON StatusCreated (Json.Object [("id", Json.Str "m2")])]
   /\ effects (handleCreateRoomMessage write_m1) world_m1_busy
      = [EGo (schema.Message.mk KindMessageCreated
                (schema.Any (schema.MessageCreatedEvent.mk "m2" "hello")) "R");
         EPureJSON StatusCreated (Json.Object [("id", Json.Str "m2")])])
  /\ (effects (handleReactToMessage write_m1) world_m1
      = [EGo (reaction_event KindMessageReactionIncreased "R" "m1" 3);
         EPureJSON StatusOK (Json.Object [("count", Json.Number 3)])]
      /\ effects (handleReactToMessage write_m1) world_m1_busy
         = [EGo (reaction_event KindMessageReactionIncreased "R" "m1" 3);
            EPureJSON StatusOK (Json.Object [("count", Json.Number 3)])])
  /\ (effects (handleRemoveReactionFromMessage write_m1) world_m1
      = [EGo (reaction_event KindMessageReactionDecreased "R" "m1" 1);
         EPureJSON StatusOK (Json.Object [("count", Json.Number 1)])]
      /\ effects (handleRemoveReactionFromMessage write_m1) world_m1_busy
         = [EGo (reaction_event KindMessageReactionDecreased "R" "m1" 1);
            EPureJSON StatusOK (Json.Object [("count", Json.Number 1)])])
  /\ (effects (handleMarkMessageAsAnswered write_m1) world_m1
      = [EGo (schema.Message.mk KindMessageAnswered
                (schema.Any (schema.MessageAnsweredEvent.mk "m1")) "R");
         EPureJSON StatusOK Json.Null]
      /\ effects (handleMarkMessageAsAnswered write_m1) world_m1_busy
         = [EGo (schema.Message.mk KindMessageAnswered
                   (schema.Any (schema.MessageAnsweredEvent.mk "m1")) "R");
            EPureJSON StatusOK Json.Null]).
Proof.
  destruct (@write_response_detached env write_m1 world_m1 world_m1_busy eq_refl)
    as (_ & Hcreate & Hmessage & _).
  assert (@message_lookups env write_m1 world_m1 "R" "m1") as Hlook.
  { exists (schema.GetMessageByIDInput.mk "R" "m1"), "R",
           (pgstore.mkMessage "m1" "R" "hi" 2 false).
    repeat split. }
  destruct (Hmessage "R" "m1" Hlook) as (Hup & Hdown & Hmark).
  split; [|split; [|split]].
  - exact (Hcreate (schema.GetRoomByIDInput.mk "R") "R" "R"
                   (schema.CreateMessageInput.mk "hello") "m2" _
                   eq_refl eq_refl eq_refl eq_refl eq_refl).
  - exact (Hup 3 _ eq_refl).
  - exact (Hdown 1 _ eq_refl).
  - exact (Hmark _ eq_refl).
Defined.

Example handleCreateRoomMessage_post_hello :
  responses (effects (handleCreateRoomMessage post_hello) world2)
  = [(201, Json.Object [("id", Json.Str "m1")])].
Proof. vm_compute. reflexivity. Qed.

(** C10, on the message [m1] of room [R]. *)
Lemma message_text_under_theme_witness :
  effects (handleGetRoomMessage get_m1) world_m1
  = [EPureJSON StatusOK
       (Json.Object [("id", Json.Str "m1");
                     ("theme", Json.Str "hi");
                     ("reaction_count", Json.Number 2);
                     ("answered", Json.Bool false)])]
  /\ effects (handleGetRoomMessages get_m1) world_m1
     = [EPureJSON StatusOK
          (Json.Array [Json.Object [("id", Json.Str "m1");
                                    ("theme", Json.Str "hi");
                                    ("reaction_count", Json.Number 2);
                                    ("answered", Json.Bool false)]])].
Proof.
  destruct (@message_text_under_theme env get_m1 world_m1) as [Hone Hlist].
  split.
  - exact (Hone (schema.GetMessageByIDInput.mk "R" "m1") "R" "R" "m1"
                (pgstore.mkMessage "m1" "R" "hi" 2 false)
                eq_refl eq_refl eq_refl eq_refl eq_refl).
  - exact (proj1 (Hlist (schema.GetRoomByIDInput.mk "R") "R" "R"
                        [pgstore.mkMessage "m1" "R" "hi" 2 false]
                        eq_refl eq_refl eq_refl eq_refl)).
Defined.

Example get_message_body_text :
  List.map (fun r => Json.marshal false r.2)
           (responses (effects (handleGetRoomMessage get_m1) world_m1))
  = [Json.text "{'id':'m1','theme':'hi','reaction_count':2,'answered':false}"].
Proof. vm_compute. reflexivity. Qed.

Example get_message_output_sample :
  Json.marshal true (Json.to_json (schema.GetMessageOutput.mk "a" "b<c" (-12) true))
  = Json.text "{'id':'a','theme':'b\u003cc','reaction_count':-12,'answered':true}".
Proof. vm_compute. reflexivity. Qed.

Example payload_sample :
  Json.marshal true (Json.to_json (created_m1 "R"))
  = Json.text "{'kind':'message_created','value':{'ID':'m1','Message':'hi'}}".
Proof. vm_compute. reflexivity. Qed.

End InMemory.

(** * Further properties *)

(** ** The registry, entry by entry *)

Section RegistryEntries.
Implicit Types (subs : gmap string (gmap (option positive) positive)).
Implicit Types (conn : option positive) (roomID : string).

Lemma cancel_of_register subs roomID conn cancel roomID' conn' :
  cancel_of (register subs roomID conn cancel) roomID' conn'
  = if decide (roomID' = roomID /\ conn' = conn) then Some cancel
    else cancel_of subs roomID' conn'.
Proof.
  rewrite register_insert. unfold cancel_of.
  destruct (decide (roomID' = roomID)) as [->|Hr].
  - rewrite lookup_insert_eq. simpl.
    destruct (decide (conn' = conn)) as [->|Hc].
    + rewrite lookup_insert_eq. by rewrite decide_True.
    + rewrite lookup_insert_ne by done. rewrite decide_False by tauto.
      by destruct (subs !! roomID).
  - rewrite lookup_insert_ne by done. by rewrite decide_False by tauto.
Qed.

Lemma cancel_of_deregister subs roomID conn roomID' conn' :
  cancel_of (deregister subs roomID conn) roomID' conn'
  = if decide (roomID' = roomID /\ conn' = conn) then None
    else cancel_of subs roomID' conn'.
Proof.
  unfold deregister, cancel_of.
  destruct (subs !! roomID) as [room|] eqn:E.
  - destruct (decide (roomID' = roomID)) as [->|Hr].
    + rewrite lookup_insert_eq, E. simpl.
      destruct (decide (conn' = conn)) as [->|Hc].
      * rewrite lookup_delete_eq. by rewrite decide_True.
      * rewrite lookup_delete_ne by done. by rewrite decide_False by tauto.
    + rewrite lookup_insert_ne by done. by rewrite decide_False by tauto.
  - case_decide as Hd; [|done]. destruct Hd as [-> ->]. by rewrite E.
Qed.

(** X1. Registering a connection in a room binds exactly that (room,
    connection) pair to the new cancel function, and deregistering unbinds
    exactly that pair: every other pair keeps what it had. *)
Theorem registry_entry_updates subs roomID conn cancel :
  cancel_of (register subs roomID conn cancel) roomID conn = Some cancel
  /\ cancel_of (deregister subs roomID conn) roomID conn = None
  /\ forall roomID' conn',
       ~ (roomID' = roomID /\ conn' = conn) ->
       cancel_of (register subs roomID conn cancel) roomID' conn'
       = cancel_of subs roomID' conn'
       /\ cancel_of (deregister subs roomID conn) roomID' conn'
          = cancel_of subs roomID' conn'.
Proof.
  split; [|split].
  - rewrite cancel_of_register. by rewrite decide_True.
  - rewrite cancel_of_deregister. by rewrite decide_True.
  - intros roomID' conn' Hne.
    rewrite cancel_of_register, cancel_of_deregister. by rewrite !decide_False.
Qed.

(** X2. A session of a connection that was not yet in the room leaves the
    registry as it would be had the room's map merely been created: the
    room's entry stays (empty if nobody else is there), no entry is ever
    removed, and every room has the members it had before. *)
Theorem session_round_trip subs roomID conn cancel :
  cancel_of subs roomID conn = None ->
  deregister (register subs roomID conn cancel) roomID conn = ensure_room subs roomID
  /\ is_Some (ensure_room subs roomID !! roomID)
  /\ forall roomID',
       default ∅ (ensure_room subs roomID !! roomID') = default ∅ (subs !! roomID').
Proof.
  intros Hfresh. split; [|split].
  - rewrite register_insert. unfold deregister, ensure_room.
    rewrite lookup_insert_eq, insert_insert_eq.
    unfold cancel_of in Hfresh.
    destruct (subs !! roomID) as [room|] eqn:E; simpl in *.
    + rewrite delete_insert_eq, delete_id by done. by apply insert_id.
    + by rewrite delete_insert_eq, delete_empty.
  - unfold ensure_room. destruct (subs !! roomID) as [room|] eqn:E.
    + by rewrite E.
    + rewrite lookup_insert_eq. eauto.
  - intros roomID'. unfold ensure_room.
    destruct (subs !! roomID) as [room|] eqn:E; [done|].
    destruct (decide (roomID' = roomID)) as [->|Hne].
    + by rewrite lookup_insert_eq, E.
    + by rewrite lookup_insert_ne.
Qed.

End RegistryEntries.

(** ** notifyClients: what it leaves, whom it cancels, how often it writes *)

Section PublishMore.
Context `{Env}.

Lemma fold_cancel_elem (wire0 : option positive -> option error)
    (entries : list (option positive * positive)) (acc : gset positive) cancel :
  cancel ∈ fold_left (fun acc entry =>
                        match wire0 entry.1 with
                        | None => acc
                        | Some _ => {[entry.2]} ∪ acc
                        end) entries acc
  <-> cancel ∈ acc
      \/ exists conn err, (conn, cancel) ∈ entries /\ wire0 conn = Some err.
Proof.
  revert acc. induction entries as [|[conn0 cancel0] rest IH]; intros acc; simpl.
  - split; [by left|]. intros [Hin|(conn & err & Hin & _)]; [done|].
    by apply elem_of_nil in Hin.
  - rewrite IH. split.
    + intros [Hin|(conn & err & Hin & Hw)].
      * destruct (wire0 conn0) as [err0|] eqn:E; [|by left].
        apply elem_of_union in Hin as [Hin|Hin]; [|by left].
        apply elem_of_singleton in Hin as ->.
        right. exists conn0, err0. split; [apply elem_of_cons; by left|done].
      * right. exists conn, err. split; [apply elem_of_cons; by right|done].
    + intros [Hin|(conn & err & Hin & Hw)].
      * left. destruct (wire0 conn0); set_solver.
      * apply elem_of_cons in Hin as [Heq|Hin].
        -- injection Heq as -> ->. left. rewrite Hw. set_solver.
        -- right. eauto.
Qed.

(** X3. A run of [notifyClients] changes nothing but the set of cancelled
    contexts, which can only grow: the registry, the database and the
    state of the connections are what they were. It removes no
    subscriber itself. *)
Theorem notifyClients_preserves (msg : schema.Message.t) (w : World) :
  subscribers (after (notifyClients msg) w) = subscribers w
  /\ store (after (notifyClients msg) w) = store w
  /\ wire (after (notifyClients msg) w) = wire w
  /\ cancelled w ⊆ cancelled (after (notifyClients msg) w).
Proof.
  unfold after. rewrite notifyClients_run. simpl. repeat split.
  intros cancel Hin. by apply cancelled_by_mono.
Qed.

(** X4. A context that is cancelled after a run of [notifyClients] was
    cancelled before or is the context of a connection of the event's room
    whose write failed: no healthy subscriber, and no subscriber of another
    room, is cancelled by the run. When none of the room's connections is
    the nil pointer the converse holds too: the run cancels the context of
    every connection of the room whose write fails. *)
Theorem notifyClients_cancels_exactly (msg : schema.Message.t) (w : World)
    (cancel : positive) :
  (cancel ∈ cancelled (after (notifyClients msg) w) ->
   cancel ∈ cancelled w
   \/ exists conn err,
        cancel_of (subscribers w) (schema.Message.RoomID msg) conn = Some cancel
        /\ wire w conn = Some err)
  /\ (cancel_of (subscribers w) (schema.Message.RoomID msg) None = None ->
      cancel ∈ cancelled w
      \/ (exists conn err,
             cancel_of (subscribers w) (schema.Message.RoomID msg) conn = Some cancel
             /\ wire w conn = Some err) ->
      cancel ∈ cancelled (after (notifyClients msg) w)).
Proof.
  unfold after. rewrite notifyClients_run. simpl.
  unfold cancelled_by. rewrite fold_cancel_elem. split.
  - intros [Hin|(conn & err & Hin & Hw)]; [by left|right; exists conn, err].
    split; [|done]. by apply visited_elem.
  - intros Hnil [Hin|(conn & err & Hin & Hw)]; [by left|right; exists conn, err].
    split; [|done]. destruct (visited_all w _ Hnil) as [-> _].
    unfold room_entries, cancel_of in *. apply elem_of_range_order.
    destruct (subscribers w !! schema.Message.RoomID msg); [done|discriminate].
Qed.

Lemma attempts_app conn (t1 t2 : list Effect) :
  attempts conn (t1 ++ t2) = attempts conn t1 ++ attempts conn t2.
Proof. apply omap_app. Qed.

Lemma attempts_send_effects (w : World) msg conn entry :
  attempts conn (send_effects w msg entry)
  = if decide (entry.1 = conn) then [(Json.to_json msg, wire w conn)] else [].
Proof.
  unfold send_effects, attempts.
  destruct (wire w entry.1) as [err|] eqn:E; simpl;
    destruct (decide (entry.1 = conn)) as [Heq|Hne]; try done;
    rewrite <- Heq; by rewrite E.
Qed.

Lemma attempts_sends_absent (w : World) msg conn
    (entries : list (option positive * positive)) :
  conn ∉ entries.*1 ->
  attempts conn (flat_map (send_effects w msg) entries) = [].
Proof.
  induction entries as [|entry rest IH]; intros Hnot; [done|].
  simpl. rewrite attempts_app, attempts_send_effects.
  rewrite fmap_cons in Hnot. apply not_elem_of_cons in Hnot as [Hne Hrest].
  rewrite decide_False by done. by apply IH.
Qed.

Lemma attempts_sends_once (w : World) msg conn cancel
    (entries : list (option positive * positive)) :
  NoDup entries.*1 -> (conn, cancel) ∈ entries ->
  attempts conn (flat_map (send_effects w msg) entries)
  = [(Json.to_json msg, wire w conn)].
Proof.
  induction entries as [|entry rest IH]; intros Hnd Hin; [by apply elem_of_nil in Hin|].
  rewrite fmap_cons in Hnd. apply NoDup_cons in Hnd as [Hhead Hnd].
  simpl. rewrite attempts_app, attempts_send_effects.
  apply elem_of_cons in Hin as [<-|Hin].
  - simpl. rewrite decide_True by done.
    by rewrite attempts_sends_absent.
  - rewrite decide_False.
    + by apply IH.
    + intros Heq. apply Hhead. rewrite Heq.
      apply list_elem_of_fmap. by exists (conn, cancel).
Qed.

Lemma received_attempts conn (tr : list Effect) :
  received conn tr
  = omap (fun attempt => match attempt.2 with
                         | None => Some attempt.1
                         | Some _ => None
                         end) (attempts conn tr).
Proof.
  induction tr as [|e tr IH]; [done|].
  destruct e as [| |conn' frame [err|]| | | | |]; try exact IH.
  - unfold received, attempts in *. simpl.
    destruct (decide (conn' = conn)); simpl; exact IH.
  - unfold received, attempts in *. simpl.
    destruct (decide (conn' = conn)); simpl; [f_equal|]; exact IH.
Qed.

Lemma NoDup_range_order (room : gmap (option positive) positive) :
  NoDup (range_order room).*1.
Proof. rewrite range_order_perm. apply NoDup_fst_map_to_list. Qed.

Lemma notifyClients_attempts (msg : schema.Message.t) (w : World)
    (conn : option positive) (cancel : positive) :
  cancel_of (subscribers w) (schema.Message.RoomID msg) None = None ->
  cancel_of (subscribers w) (schema.Message.RoomID msg) conn = Some cancel ->
  attempts conn (effects (notifyClients msg) w) = [(Json.to_json msg, wire w conn)].
Proof.
  intros Hnil Hreg. unfold effects. rewrite notifyClients_run. simpl.
  destruct (visited_all w _ Hnil) as [-> _].
  change (EMuLock :: ?l) with ([EMuLock] ++ l).
  rewrite !attempts_app. simpl. rewrite app_nil_r.
  apply (attempts_sends_once w msg conn cancel).
  - apply NoDup_range_order.
  - unfold room_entries, cancel_of in *. apply elem_of_range_order.
    destruct (subscribers w !! schema.Message.RoomID msg); [done|discriminate].
Qed.


(** X5. In one run of [notifyClients], for a room none of whose
    registered connections is the nil pointer, each connection registered
    under the room is written to exactly once, with the event's document;
    it receives that one frame when the write succeeds and nothing when it
    fails. Nothing is sent twice and nothing is retried. *)
Theorem notifyClients_writes_once (msg : schema.Message.t) (w : World)
    (conn : option positive) (cancel : positive) :
  cancel_of (subscribers w) (schema.Message.RoomID msg) None = None ->
  cancel_of (subscribers w) (schema.Message.RoomID msg) conn = Some cancel ->
  attempts conn (effects (notifyClients msg) w) = [(Json.to_json msg, wire w conn)]
  /\ received conn (effects (notifyClients msg) w)
     = match wire w conn with
       | None => [Json.to_json msg]
       | Some _ => []
       end.
Proof.
  intros Hnil Hreg.
  pose proof (notifyClients_attempts msg w conn cancel Hnil Hreg) as Hatt.
  split; [done|].
  rewrite received_attempts, Hatt. simpl. by destruct (wire w conn).
Qed.

End PublishMore.

(** ** The life of a subscription *)

Section Session.
Context `{Env}.

Lemma handleSubscribe_accepted (c : gin_Context) (w : World)
    (uri : schema.GetRoomByIDInput.t) (roomID : UUID) (room : Room) (p : positive) :
  ShouldBindUri_GetRoomByIDInput c = OK uri ->
  MustParse (schema.GetRoomByIDInput.RoomID uri) = Some roomID ->
  GetRoom roomID (store w) = OK room ->
  Upgrade c = OK p ->
  handleSubscribe c w
  = (Next (AwaitDone (WithCancel c) (handleSubscribe_leave (UUID_String roomID) (Some p))),
     mkWorld (register (subscribers w) (UUID_String roomID) (Some p) (WithCancel c))
             (cancelled w) (wire w) (store w),
     [EMuLock;
      ESlog LevelInfo "new client connected"
            [("room_id", UUID_String roomID); ("client_ip", ClientIP c)];
      EMuUnlock]).
Proof.
  intros Hbind Hparse Hroom Hup.
  destruct w as [subs cancelled0 wire0 store0]. simpl in Hroom.
  unfold handleSubscribe, uuid_MustParse, require_room, check, query, bind, ret.
  rewrite Hbind. simpl. rewrite Hparse. simpl. rewrite Hroom. simpl.
  rewrite Hup. reflexivity.
Qed.




(** X7. A subscribe request whose URI does not bind, or whose room the
    query layer cannot load, ends at once: the handler returns having
    written one response with status 400, 404 or 500, nothing is locked,
    and the world (the registry with it) is unchanged. *)
Theorem handleSubscribe_rejected (c : gin_Context) (w : World) :
  (exists err, ShouldBindUri_GetRoomByIDInput c = Failed err)
  \/ (exists uri roomID err,
         ShouldBindUri_GetRoomByIDInput c = OK uri
         /\ MustParse (schema.GetRoomByIDInput.RoomID uri) = Some roomID
         /\ GetRoom roomID (store w) = Failed err) ->
  flow (handleSubscribe c) w = Next Finished
  /\ after (handleSubscribe c) w = w
  /\ Forall handler_effect (effects (handleSubscribe c) w)
  /\ exists status body,
       responses (effects (handleSubscribe c) w) = [(status, body)]
       /\ (status = StatusBadRequest \/ status = StatusNotFound
           \/ status = StatusInternalServerError).
Proof.
  unfold flow, after, effects.
  intros [[err Hbind]|(uri & roomID & err & Hbind & Hparse & Hroom)];
    unfold handleSubscribe, uuid_MustParse, require_room, check, query, bind, ret;
    rewrite Hbind; simpl.
  - repeat split; [repeat constructor|]. eexists _, _. split; [reflexivity|]. by left.
  - rewrite Hparse. simpl. rewrite Hroom. simpl.
    destruct err as [|msg]; simpl.
    + repeat split; [repeat constructor|].
      eexists _, _. split; [reflexivity|]. right. by left.
    + repeat split; [repeat constructor|].
      eexists _, _. split; [reflexivity|]. right. by right.
Qed.


End Session.

(** ** What every request handler answers *)

Section Answers.
Context `{RoomQueries}.

Lemma same_sessions_refl (w : World) : same_sessions w w.
Proof. by repeat split. Qed.

Lemma same_sessions_trans (w1 w2 w3 : World) :
  same_sessions w1 w2 -> same_sessions w2 w3 -> same_sessions w1 w3.
Proof.
  intros (H1 & H2 & H3) (H4 & H5 & H6). repeat split; congruence.
Qed.

Lemma guard_ret {A} bad (a : A) : guard bad (ret a).
Proof. intros w. simpl. split; [done|apply same_sessions_refl]. Qed.

Lemma guard_query {T} bad (q : Store -> T) : guard bad (query q).
Proof. intros w. simpl. split; [done|apply same_sessions_refl]. Qed.

Lemma guard_exec {T} bad (q : Store -> T * Store) : guard bad (exec q).
Proof. intros w. unfold exec. destruct (q (store w)). simpl. by repeat split. Qed.

Lemma guard_MustParse bad s : guard bad (uuid_MustParse s).
Proof.
  intros w. unfold uuid_MustParse.
  destruct (MustParse s); simpl; (split; [done|apply same_sessions_refl]).
Qed.

Lemma guard_bind {A B} bad (m : M A) (k : A -> M B) :
  guard bad m -> (forall a, guard bad (k a)) -> guard bad (bind m k).
Proof.
  intros Hm Hk w. specialize (Hm w). unfold bind.
  destruct (m w) as [[[a| |reason] w1] t1]; try done.
  destruct Hm as [-> Hs1]. specialize (Hk a w1).
  destruct (k a w1) as [[[b| |reason] w2] t2]; simpl;
    destruct Hk as [Ht Hs2]; (split; [done|by eapply same_sessions_trans]).
Qed.

Lemma final_bind {A B} bad publishes (m : M A) (k : A -> M B) :
  guard bad m -> (forall a, final bad publishes (k a)) -> final bad publishes (bind m k).
Proof.
  intros Hm Hk w. specialize (Hm w). unfold bind.
  destruct (m w) as [[[a| |reason] w1] t1].
  - destruct Hm as [-> Hs1]. specialize (Hk a w1).
    destruct (k a w1) as [[[b| |reason] w2] t2]; simpl;
      destruct Hk as [Ht Hs2]; (split; [done|by eapply same_sessions_trans]).
  - destruct Hm as [Hr Hs]. split; [by left|done].
  - done.
Qed.

Lemma guard_check {T} bad (call : M (Result T)) (on_err : error -> M unit) :
  guard bad call ->
  (forall err, (exists w, flow call w = Next (Failed err)) -> refuses bad (on_err err)) ->
  guard bad (check call on_err).
Proof.
  intros Hc He w. specialize (Hc w). unfold check, bind.
  destruct (call w) as [[[[v|err]| |reason] w1] t1] eqn:Hcall; try done.
  - destruct Hc as [-> Hs]. simpl. done.
  - destruct Hc as [-> Hs].
    assert (exists w0, flow call w0 = Next (Failed err)) as Hfailed.
    { exists w. unfold flow. by rewrite Hcall. }
    destruct (He err Hfailed w1) as (t & -> & Hr).
    simpl. rewrite app_nil_r. done.
Qed.

Lemma refuses_internal bad msg attrs :
  refuses bad (bind (slog_Error msg attrs)
                (fun _ => c_PureJSON StatusInternalServerError "something went wrong")).
Proof. intros w. eexists. split; [reflexivity|]. apply refusal_internal. Qed.

Lemma guard_bind_or_400 {T} (bad : string -> Prop) (bound : Result T) :
  (forall err, bound = Failed err -> bad (error_Error err)) ->
  guard bad (bind_or_400 bound).
Proof.
  intros Hbad. unfold bind_or_400. apply guard_check; [apply guard_ret|].
  intros err [w0 Hflow] w. eexists. split; [reflexivity|].
  apply refusal_bad_request. apply Hbad. unfold flow, ret in Hflow. simpl in Hflow.
  congruence.
Qed.

Lemma guard_require_room bad roomID : guard bad (require_room roomID).
Proof.
  unfold require_room. apply guard_check; [apply guard_query|].
  intros err _. destruct (is_ErrNoRows err); [|apply refuses_internal].
  intros w. eexists. split; [reflexivity|]. apply refusal_not_found. by left.
Qed.

Lemma guard_require_message bad messageID : guard bad (require_message messageID).
Proof.
  unfold require_message. apply guard_check; [apply guard_query|].
  intros err _. destruct (is_ErrNoRows err); [|apply refuses_internal].
  intros w. eexists. split; [reflexivity|]. apply refusal_not_found. by right.
Qed.

Lemma final_PureJSON {T} `{Json.Marshaler T} bad status (obj : T) :
  status = StatusOK \/ status = StatusCreated ->
  final bad false (c_PureJSON status obj).
Proof.
  intros Hs w. simpl. split; [by apply success_plain|apply same_sessions_refl].
Qed.

Lemma final_go_PureJSON {T} `{Json.Marshaler T} bad msg status (obj : T) :
  status = StatusOK \/ status = StatusCreated ->
  final bad true (bind (go_notifyClients msg) (fun _ => c_PureJSON status obj)).
Proof.
  intros Hs w. simpl. split; [by apply success_published|apply same_sessions_refl].
Qed.

Lemma answers_func bad publishes (body : M unit) :
  final bad publishes body -> answers bad publishes (func body).
Proof.
  intros Hb w. specialize (Hb w). unfold func.
  destruct (body w) as [[[a| |reason] w1] t1]; try done.
  destruct Hb as [Hs Hw]. split; [by right|done].
Qed.

Ltac answers_steps :=
  apply answers_func;
  repeat (apply final_bind;
          [ first [ apply guard_bind_or_400;
                    intros ? ?; eexists; split; [reflexivity|tauto]
                  | apply guard_MustParse
                  | apply guard_require_room | apply guard_require_message
                  | apply guard_check; [first [apply guard_query | apply guard_exec]
                                       | intros ? _; apply refuses_internal] ]
          | intros ? ]).

Lemma answers_handleCreateRoom c :
  answers (binding_error c) false (handleCreateRoom c).
Proof.
  unfold handleCreateRoom. answers_steps. apply final_PureJSON. by right.
Qed.

Lemma answers_handleGetRooms c :
  answers (binding_error c) false (handleGetRooms c).
Proof.
  unfold handleGetRooms. answers_steps.
  destruct a as [|room rooms].
  - intros w. simpl. split; [|apply same_sessions_refl].
    right. apply success_plain. by left.
  - apply final_PureJSON. by left.
Qed.

Lemma answers_handleGetRoom c :
  answers (binding_error c) false (handleGetRoom c).
Proof.
  unfold handleGetRoom. answers_steps. apply final_PureJSON. by left.
Qed.

Lemma answers_handleCreateRoomMessage c :
  answers (binding_error c) true (handleCreateRoomMessage c).
Proof.
  unfold handleCreateRoomMessage. answers_steps. apply final_go_PureJSON. by right.
Qed.

Lemma answers_handleGetRoomMessages c :
  answers (binding_error c) false (handleGetRoomMessages c).
Proof.
  unfold handleGetRoomMessages. answers_steps.
  destruct a2 as [|message messages].
  - intros w. simpl. split; [|apply same_sessions_refl].
    right. apply success_plain. by left.
  - apply final_PureJSON. by left.
Qed.

Lemma answers_handleGetRoomMessage c :
  answers (binding_error c) false (handleGetRoomMessage c).
Proof.
  unfold handleGetRoomMessage. answers_steps. apply final_PureJSON. by left.
Qed.

Lemma answers_handleReactToMessage c :
  answers (binding_error c) true (handleReactToMessage c).
Proof.
  unfold handleReactToMessage. answers_steps. apply final_go_PureJSON. by left.
Qed.

Lemma answers_handleRemoveReactionFromMessage c :
  answers (binding_error c) true (handleRemoveReactionFromMessage c).
Proof.
  unfold handleRemoveReactionFromMessage. answers_steps. apply final_go_PureJSON. by left.
Qed.

Lemma answers_handleMarkMessageAsAnswered c :
  answers (binding_error c) true (handleMarkMessageAsAnswered c).
Proof.
  unfold handleMarkMessageAsAnswered. answers_steps.
  apply final_bind; [apply guard_exec|]. intros [err|].
  - apply final_bind; [|intros _; apply final_go_PureJSON; by left].
    intros w. simpl. split; [apply refusal_internal|apply same_sessions_refl].
  - apply final_bind; [apply guard_ret|]. intros _. apply final_go_PureJSON. by left.
Qed.

Lemma answers_rest_handlers c :
  Forall (fun handler => answers (binding_error c) false (handler c))
         [handleCreateRoom; handleGetRooms; handleGetRoom;
          handleGetRoomMessages; handleGetRoomMessage]
  /\ Forall (fun handler => answers (binding_error c) true (handler c)) write_handlers.
Proof.
  split.
  - constructor; [apply answers_handleCreateRoom|].
    constructor; [apply answers_handleGetRooms|].
    constructor; [apply answers_handleGetRoom|].
    constructor; [apply answers_handleGetRoomMessages|].
    constructor; [apply answers_handleGetRoomMessage|].
    constructor.
  - constructor; [apply answers_handleCreateRoomMessage|].
    constructor; [apply answers_handleReactToMessage|].
    constructor; [apply answers_handleRemoveReactionFromMessage|].
    constructor; [apply answers_handleMarkMessageAsAnswered|].
    constructor.
Qed.

Lemma answers_any bad publishes handler :
  answers bad publishes handler ->
  forall w,
    match handler w with
    | (Next _, w', t) =>
        (Refusal bad t \/ Success false t \/ Success true t) /\ same_sessions w w'
    | (Return, _, _) => False
    | (Panic _, w', t) => t = [] /\ same_sessions w w'
    end.
Proof.
  intros Ha w. specialize (Ha w).
  destruct (handler w) as [[[a| |reason] w1] t1]; try done.
  destruct Ha as [[Hr|Hs] Hw]; (split; [|done]); [by left|].
  destruct publishes; [right; by right|right; by left].
Qed.

Lemma answers_all c :
  Forall (fun handler => exists publishes, answers (binding_error c) publishes (handler c))
         rest_handlers.
Proof.
  destruct (answers_rest_handlers c) as [Hread Hwrite].
  unfold rest_handlers, write_handlers in *.
  repeat match goal with
         | Hf : Forall _ (_ :: _) |- _ => apply Forall_cons in Hf as [? Hf]
         end.
  repeat (constructor; [eauto|]). constructor.
Qed.


(** Run a handler along the path the hypotheses fix. *)
Ltac handler_path :=
  unfold effects, handleCreateRoom, handleGetRooms, handleGetRoom,
    handleCreateRoomMessage, handleGetRoomMessages, handleGetRoomMessage,
    handleReactToMessage, handleRemoveReactionFromMessage, handleMarkMessageAsAnswered,
    bind_or_400, uuid_MustParse, require_room, require_message, check,
    query, exec, func, bind, ret, lookup_refusal, internal_error;
  repeat (simpl;
          match goal with
          | Hq : ?x = _ |- context [?x] => rewrite Hq
          end);
  simpl.

(** X10. The text of an internal error never reaches the client. In every
    run of the nine handlers the effects are a refusal, a success, or none
    (a panic): a 400 carries the text of an error of binding this request,
    a 404 carries [room not found] or [message not found], a 500 carries
    [something went wrong] and comes right after an error log line. And
    every query that fails is answered that way: a failed lookup of a room
    or a message with the 404 when there is no such row and with the
    logged 500 otherwise, any other failed query with the logged 500. *)
Theorem error_answers_are_fixed (c : gin_Context) (w : World) :
  Forall (fun handler =>
            Refusal (binding_error c) (effects (handler c) w)
            \/ Success false (effects (handler c) w)
            \/ Success true (effects (handler c) w)
            \/ effects (handler c) w = [])
         rest_handlers
  /\ (forall body err store1,
         ShouldBindJSON_CreateRoomInput c = OK body ->
         InsertRoom (schema.CreateRoomInput.Theme body) (store w) = (Failed err, store1) ->
         effects (handleCreateRoom c) w = internal_error "failed to insert room" err)
  /\ (forall err,
         GetRooms (store w) = Failed err ->
         effects (handleGetRooms c) w = internal_error "failed to get rooms" err)
  /\ (forall uri roomID,
         ShouldBindUri_GetRoomByIDInput c = OK uri ->
         MustParse (schema.GetRoomByIDInput.RoomID uri) = Some roomID ->
         (forall err,
             GetRoom roomID (store w) = Failed err ->
             Forall (fun handler => effects (handler c) w = lookup_refusal "room" err)
                    [handleGetRoom; handleGetRoomMessages; handleCreateRoomMessage])
         /\ (forall room,
                GetRoom roomID (store w) = OK room ->
                (forall err,
                    GetRoomMessages roomID (store w) = Failed err ->
                    effects (handleGetRoomMessages c) w
                    = internal_error "failed to get room messages" err)
                /\ (forall body err store1,
                       ShouldBindJSON_CreateMessageInput c = OK body ->
                       InsertMessage (pgstore.mkInsertMessageParams roomID
                                        (schema.CreateMessageInput.Message body)) (store w)
                       = (Failed err, store1) ->
                       effects (handleCreateRoomMessage c) w
                       = internal_error "failed to insert message" err)))
  /\ (forall uri roomID,
         ShouldBindUri_GetMessageByIDInput c = OK uri ->
         MustParse (schema.GetMessageByIDInput.RoomID uri) = Some roomID ->
         (forall err,
             GetRoom roomID (store w) = Failed err ->
             Forall (fun handler => effects (handler c) w = lookup_refusal "room" err)
                    [handleGetRoomMessage; handleReactToMessage;
                     handleRemoveReactionFromMessage; handleMarkMessageAsAnswered])
         /\ (forall room messageID,
                GetRoom roomID (store w) = OK room ->
                MustParse (schema.GetMessageByIDInput.MessageID uri) = Some messageID ->
                (forall err,
                    GetMessage messageID (store w) = Failed err ->
                    Forall (fun handler =>
                              effects (handler c) w = lookup_refusal "message" err)
                           [handleGetRoomMessage; handleReactToMessage;
                            handleRemoveReactionFromMessage; handleMarkMessageAsAnswered])
                /\ (forall message,
                       GetMessage messageID (store w) = OK message ->
                       (forall err store1,
                           ReactToMessage messageID (store w) = (Failed err, store1) ->
                           effects (handleReactToMessage c) w
                           = internal_error "failed to react to message" err)
                       /\ (forall err store1,
                              RemoveReactionFromMessage messageID (store w)
                              = (Failed err, store1) ->
                              effects (handleRemoveReactionFromMessage c) w
                              = internal_error "failed to remove reaction from message" err)
                       /\ (forall err store1,
                              MarkMessageAsAnswered messageID (store w)
                              = (Some err, store1) ->
                              effects (handleMarkMessageAsAnswered c) w
                              = internal_error "failed to mark message as answered" err)))).
Proof.
  split; [|split; [|split; [|split]]].
  - eapply Forall_impl; [apply (answers_all c)|].
    intros handler [publishes Ha]. simpl in Ha.
    pose proof (answers_any _ _ _ Ha w) as Hw. cbv beta in Hw.
    unfold effects.
    destruct (handler c w) as [[[a| |reason] w1] t1]; simpl in *; try done.
    + destruct Hw as [[Hr|[Hs|Hs]] _]; auto.
    + destruct Hw as [-> _]. by right; right; right.
  - intros body err store1 Hbody Hins. destruct w; simpl in *. handler_path. reflexivity.
  - intros err Hq. destruct w; simpl in *. handler_path. reflexivity.
  - intros uri roomID Hbind Hparse. split.
    + intros err Hq. destruct w; simpl in *.
      repeat constructor; handler_path; by destruct err.
    + intros room Hroom. split.
      * intros err Hq. destruct w; simpl in *. handler_path. reflexivity.
      * intros body err store1 Hbody Hq. destruct w; simpl in *. handler_path.
        reflexivity.
  - intros uri roomID Hbind Hparse. split.
    + intros err Hq. destruct w; simpl in *.
      repeat constructor; handler_path; by destruct err.
    + intros room messageID Hroom Hparse'. split.
      * intros err Hq. destruct w; simpl in *.
        repeat constructor; handler_path; by destruct err.
      * intros message Hmsg. split; [|split].
        -- intros err store1 Hq. destruct w; simpl in *. handler_path. reflexivity.
        -- intros err store1 Hq. destruct w; simpl in *. handler_path. reflexivity.
        -- intros err store1 Hq. destruct w; simpl in *. handler_path. reflexivity.
Qed.

(** X11. A write handler hands an event to [go h.notifyClients] exactly
    when it answers 200 or 201, and then exactly one, just before the
    response; when it refuses the request it publishes nothing. The read
    handlers and the room handlers never publish. *)
Theorem publish_iff_success (c : gin_Context) (w : World) :
  Forall (fun handler =>
            (exists msg status body,
                effects (handler c) w = [EGo msg; EPureJSON status body]
                /\ (status = StatusOK \/ status = StatusCreated))
            \/ (published (effects (handler c) w) = []
                /\ forall status body,
                     (status, body) ∈ responses (effects (handler c) w) ->
                     400 <= status))
         write_handlers
  /\ Forall (fun handler => published (effects (handler c) w) = [])
            [handleCreateRoom; handleGetRooms; handleGetRoom;
             handleGetRoomMessages; handleGetRoomMessage].
Proof.
  destruct (answers_rest_handlers c) as [Hread Hwrite]. split.
  - eapply Forall_impl; [exact Hwrite|].
    intros handler Ha. simpl in Ha. specialize (Ha w). unfold effects.
    destruct (handler c w) as [[[a| |reason] w1] t1]; simpl; try done.
    + destruct Ha as [[Hr|Hs] _].
      * right. inversion Hr; subst; simpl; (split; [done|]);
          intros status body Hin; apply list_elem_of_singleton in Hin;
          injection Hin as -> ->; done.
      * left. inversion Hs; subst. eauto.
    + destruct Ha as [-> _]. right. split; [done|].
      intros status body Hin. by apply elem_of_nil in Hin.
  - eapply Forall_impl; [exact Hread|].
    intros handler Ha. simpl in Ha. specialize (Ha w). unfold effects.
    destruct (handler c w) as [[[a| |reason] w1] t1]; simpl; try done.
    + destruct Ha as [[Hr|Hs] _]; [inversion Hr|inversion Hs]; by subst.
    + by destruct Ha as [-> _].
Qed.

End Answers.

(** ** What the endpoints return and publish *)

Section Bodies.
Context `{RoomQueries}.

(** X12. Creating a room answers 201 with the new room's id and leaves in
    the database what the insert left; listing the rooms answers 200 with
    one object per room, in the query's order, each with the members [id]
    and [theme] (an empty array when there is none); reading a room
    answers 200 with that object, whose id is the stored room's id. *)
Theorem room_endpoints (c : gin_Context) (w : World) :
  (forall body roomID store1,
      ShouldBindJSON_CreateRoomInput c = OK body ->
      InsertRoom (schema.CreateRoomInput.Theme body) (store w) = (OK roomID, store1) ->
      handleCreateRoom c w
      = (Next tt,
         mkWorld (subscribers w) (cancelled w) (wire w) store1,
         [EPureJSON StatusCreated (Json.Object [("id", Json.Str (UUID_String roomID))])]))
  /\ (forall rooms,
         GetRooms (store w) = OK rooms ->
         handleGetRooms c w
         = (Next tt, w, [EPureJSON StatusOK (Json.Array (List.map room_object rooms))]))
  /\ (forall uri roomID room,
         ShouldBindUri_GetRoomByIDInput c = OK uri ->
         MustParse (schema.GetRoomByIDInput.RoomID uri) = Some roomID ->
         GetRoom roomID (store w) = OK room ->
         handleGetRoom c w = (Next tt, w, [EPureJSON StatusOK (room_object room)])).
Proof.
  destruct w as [subs cancelled0 wire0 store0]. simpl. split; [|split].
  - intros body roomID store1 Hbody Hins.
    unfold handleCreateRoom, bind_or_400, check, exec, func, bind, ret.
    rewrite Hbody. simpl. rewrite Hins. reflexivity.
  - intros rooms Hrooms.
    unfold handleGetRooms, check, query, func, bind, ret.
    simpl. rewrite Hrooms. simpl. destruct rooms as [|room rooms]; [reflexivity|].
    simpl. unfold c_PureJSON, emit. simpl. do 4 f_equal.
    unfold Json.to_json, Json.slice_marshaler. simpl. f_equal.
    rewrite map_map. reflexivity.
  - intros uri roomID room Hbind Hparse Hroom.
    unfold handleGetRoom, bind_or_400, uuid_MustParse, require_room, check, query,
      func, bind, ret.
    rewrite Hbind. simpl. rewrite Hparse. simpl. rewrite Hroom. reflexivity.
Qed.

Lemma reaction_event_json kind roomID messageID count :
  Json.to_json (reaction_event kind roomID messageID count)
  = Json.Object [("kind", Json.Str kind);
                 ("value", Json.Object [("ID", Json.Str (UUID_String messageID));
                                        ("Count", Json.Number count)])].
Proof. reflexivity. Qed.

(** X13. A reaction request on an existing message of an existing room
    publishes one event and answers 200 with [{"count": n}], [n] being the
    count the query returned: the event carries the same [n], the
    message's id, the kind [message_reaction_increased] (react) or
    [message_reaction_decreased] (unreact), and is addressed to the room
    named in the URI. The message is looked up by its id alone, so this
    holds whatever room the message belongs to. *)
Theorem reaction_requests (c : gin_Context) (w : World)
    (uri : schema.GetMessageByIDInput.t) (roomID messageID : UUID)
    (room : Room) (message : pgstore.Message UUID) :
  ShouldBindUri_GetMessageByIDInput c = OK uri ->
  MustParse (schema.GetMessageByIDInput.RoomID uri) = Some roomID ->
  GetRoom roomID (store w) = OK room ->
  MustParse (schema.GetMessageByIDInput.MessageID uri) = Some messageID ->
  GetMessage messageID (store w) = OK message ->
  (forall count store1,
      ReactToMessage messageID (store w) = (OK count, store1) ->
      handleReactToMessage c w
      = (Next tt,
         mkWorld (subscribers w) (cancelled w) (wire w) store1,
         [EGo (reaction_event KindMessageReactionIncreased roomID messageID count);
          EPureJSON StatusOK (Json.Object [("count", Json.Number count)])]))
  /\ (forall count store1,
         RemoveReactionFromMessage messageID (store w) = (OK count, store1) ->
         handleRemoveReactionFromMessage c w
         = (Next tt,
            mkWorld (subscribers w) (cancelled w) (wire w) store1,
            [EGo (reaction_event KindMessageReactionDecreased roomID messageID count);
             EPureJSON StatusOK (Json.Object [("count", Json.Number count)])])).
Proof.
  intros Hbind Hparse Hroom Hparse' Hmsg.
  destruct w as [subs cancelled0 wire0 store0]. simpl in *. split.
  - intros count store1 Hreact.
    unfold handleReactToMessage, bind_or_400, uuid_MustParse, require_room,
      require_message, check, query, exec, func, bind, ret.
    rewrite Hbind. simpl. rewrite Hparse. simpl. rewrite Hroom. simpl.
    rewrite Hparse'. simpl. rewrite Hmsg. simpl. rewrite Hreact. reflexivity.
  - intros count store1 Hreact.
    unfold handleRemoveReactionFromMessage, bind_or_400, uuid_MustParse, require_room,
      require_message, check, query, exec, func, bind, ret.
    rewrite Hbind. simpl. rewrite Hparse. simpl. rewrite Hroom. simpl.
    rewrite Hparse'. simpl. rewrite Hmsg. simpl. rewrite Hreact. reflexivity.
Qed.

(** X14. Marking an existing message of an existing room as answered
    publishes one [message_answered] event, whose value is the message's
    id alone, to the room named in the URI, and answers 200 with the body
    [null]; when the update fails nothing is published and the answer is
    the logged 500. *)
Theorem answered_requests (c : gin_Context) (w : World)
    (uri : schema.GetMessageByIDInput.t) (roomID messageID : UUID)
    (room : Room) (message : pgstore.Message UUID) :
  ShouldBindUri_GetMessageByIDInput c = OK uri ->
  MustParse (schema.GetMessageByIDInput.RoomID uri) = Some roomID ->
  GetRoom roomID (store w) = OK room ->
  MustParse (schema.GetMessageByIDInput.MessageID uri) = Some messageID ->
  GetMessage messageID (store w) = OK message ->
  let event :=
    schema.Message.mk KindMessageAnswered
      (schema.Any (schema.MessageAnsweredEvent.mk (UUID_String messageID)))
      (UUID_String roomID) in
  Json.to_json event
  = Json.Object [("kind", Json.Str "message_answered");
                 ("value", Json.Object [("ID", Json.Str (UUID_String messageID))])]
  /\ (forall store1,
         MarkMessageAsAnswered messageID (store w) = (None, store1) ->
         handleMarkMessageAsAnswered c w
         = (Next tt,
            mkWorld (subscribers w) (cancelled w) (wire w) store1,
            [EGo event; EPureJSON StatusOK Json.Null]))
  /\ (forall err store1,
         MarkMessageAsAnswered messageID (store w) = (Some err, store1) ->
         handleMarkMessageAsAnswered c w
         = (Next tt,
            mkWorld (subscribers w) (cancelled w) (wire w) store1,
            [ESlog LevelError "failed to mark message as answered" (error_attr err);
             EPureJSON StatusInternalServerError (Json.Str "something went wrong")])).
Proof.
  intros Hbind Hparse Hroom Hparse' Hmsg event.
  destruct w as [subs cancelled0 wire0 store0]. simpl in *.
  split; [reflexivity|]. split.
  - intros store1 Hmark.
    unfold handleMarkMessageAsAnswered, bind_or_400, uuid_MustParse, require_room,
      require_message, check, query, exec, func, bind, ret.
    rewrite Hbind. simpl. rewrite Hparse. simpl. rewrite Hroom. simpl.
    rewrite Hparse'. simpl. rewrite Hmsg. simpl. rewrite Hmark. reflexivity.
  - intros err store1 Hmark.
    unfold handleMarkMessageAsAnswered, bind_or_400, uuid_MustParse, require_room,
      require_message, check, query, exec, func, bind, ret.
    rewrite Hbind. simpl. rewrite Hparse. simpl. rewrite Hroom. simpl.
    rewrite Hparse'. simpl. rewrite Hmsg. simpl. rewrite Hmark. reflexivity.
Qed.

End Bodies.

(** ** From a post to the subscriber's socket *)

Section EndToEnd.
Context `{Env}.

(** X15. A message posted to a room reaches a connection subscribed to that
    room, provided the room holds no nil connection (left there by a failed
    upgrade): after a subscribe request has been accepted, a create-message
    request for the same room (its URI may spell the id differently, as
    long as it parses to the same id) publishes one event, and the run of
    [notifyClients] for it delivers to the subscriber's healthy connection
    one frame, the [message_created] document with the new message's id
    and the posted text. *)
Theorem posted_message_reaches_subscriber (cs cp : gin_Context) (w : World)
    (uri_s uri_p : schema.GetRoomByIDInput.t) (roomID : UUID) (room : Room)
    (p : positive) (body : schema.CreateMessageInput.t) (messageID : UUID)
    (store1 : Store) :
  ShouldBindUri_GetRoomByIDInput cs = OK uri_s ->
  MustParse (schema.GetRoomByIDInput.RoomID uri_s) = Some roomID ->
  Upgrade cs = OK p ->
  ShouldBindUri_GetRoomByIDInput cp = OK uri_p ->
  MustParse (schema.GetRoomByIDInput.RoomID uri_p) = Some roomID ->
  GetRoom roomID (store w) = OK room ->
  ShouldBindJSON_CreateMessageInput cp = OK body ->
  InsertMessage (pgstore.mkInsertMessageParams roomID
                   (schema.CreateMessageInput.Message body)) (store w)
  = (OK messageID, store1) ->
  wire w (Some p) = None ->
  cancel_of (subscribers w) (UUID_String roomID) None = None ->
  let w1 := after (handleSubscribe cs) w in
  let w2 := after (handleCreateRoomMessage cp) w1 in
  exists msg,
    published (effects (handleCreateRoomMessage cp) w1) = [msg]
    /\ received (Some p) (effects (notifyClients msg) w2)
       = [Json.Object
            [("kind", Json.Str "message_created");
             ("value",
              Json.Object [("ID", Json.Str (UUID_String messageID));
                           ("Message", Json.Str (schema.CreateMessageInput.Message body))])]].
Proof.
  intros Hs Hps Hup Hp Hpp Hroom Hbody Hins Hwire Hnil w1 w2.
  assert (w1 = mkWorld (register (subscribers w) (UUID_String roomID) (Some p) (WithCancel cs))
                       (cancelled w) (wire w) (store w)) as Hw1.
  { unfold w1, after. by rewrite (handleSubscribe_accepted cs w uri_s roomID room p). }
  pose proof (handleCreateRoomMessage_created cp w1 uri_p roomID room body messageID store1)
    as Hpost.
  rewrite Hw1 in Hpost. simpl in Hpost. specialize (Hpost Hp Hpp Hroom Hbody Hins).
  eexists. unfold w2, effects, after. rewrite Hw1, Hpost. simpl.
  split; [reflexivity|].
  match goal with
  | |- received _ ((notifyClients ?m ?w0).2) = _ =>
      pose proof (notifyClients_attempts m w0 (Some p) (WithCancel cs)) as Hatt
  end.
  simpl in Hatt. rewrite !cancel_of_register in Hatt.
  rewrite decide_False in Hatt by (by intros [_ ?]).
  rewrite decide_True in Hatt by done.
  specialize (Hatt Hnil eq_refl).
  unfold effects in Hatt. rewrite received_attempts, Hatt. simpl. rewrite Hwire.
  reflexivity.
Qed.

End EndToEnd.

(** ** Requests that name what does not exist *)

Section Missing.
Context `{Env}.

(** X16. A write request that names a room the query layer cannot load,
    or (for the three message requests) a message it cannot load, changes
    nothing: the handler answers 404 when there is no such row and a
    logged 500 otherwise, runs no write query, publishes nothing, and
    leaves the world as it was. *)
Theorem missing_row_changes_nothing (c : gin_Context) (w : World) :
  (forall uri roomID err,
      ShouldBindUri_GetRoomByIDInput c = OK uri ->
      MustParse (schema.GetRoomByIDInput.RoomID uri) = Some roomID ->
      GetRoom roomID (store w) = Failed err ->
      handleCreateRoomMessage c w = (Next tt, w, lookup_refusal "room" err))
  /\ (forall uri roomID err,
         ShouldBindUri_GetMessageByIDInput c = OK uri ->
         MustParse (schema.GetMessageByIDInput.RoomID uri) = Some roomID ->
         GetRoom roomID (store w) = Failed err ->
         Forall (fun handler => handler c w = (Next tt, w, lookup_refusal "room" err))
                [handleReactToMessage; handleRemoveReactionFromMessage;
                 handleMarkMessageAsAnswered])
  /\ (forall uri roomID room messageID err,
         ShouldBindUri_GetMessageByIDInput c = OK uri ->
         MustParse (schema.GetMessageByIDInput.RoomID uri) = Some roomID ->
         GetRoom roomID (store w) = OK room ->
         MustParse (schema.GetMessageByIDInput.MessageID uri) = Some messageID ->
         GetMessage messageID (store w) = Failed err ->
         Forall (fun handler => handler c w = (Next tt, w, lookup_refusal "message" err))
                [handleReactToMessage; handleRemoveReactionFromMessage;
                 handleMarkMessageAsAnswered]).
Proof.
  split; [|split].
  - intros uri roomID err Hbind Hparse Hroom.
    unfold handleCreateRoomMessage, bind_or_400, uuid_MustParse, require_room, check,
      query, func, bind, ret, lookup_refusal.
    rewrite Hbind. simpl. rewrite Hparse. simpl. rewrite Hroom. simpl.
    by destruct err.
  - intros uri roomID err Hbind Hparse Hroom.
    repeat constructor;
      unfold handleReactToMessage, handleRemoveReactionFromMessage,
        handleMarkMessageAsAnswered, bind_or_400, uuid_MustParse, require_room, check,
        query, func, bind, ret, lookup_refusal;
      rewrite Hbind; simpl; rewrite Hparse; simpl; rewrite Hroom; simpl;
      by destruct err.
  - intros uri roomID room messageID err Hbind Hparse Hroom Hparse' Hmsg.
    repeat constructor;
      unfold handleReactToMessage, handleRemoveReactionFromMessage,
        handleMarkMessageAsAnswered, bind_or_400, uuid_MustParse, require_room,
        require_message, check, query, func, bind, ret, lookup_refusal;
      rewrite Hbind; simpl; rewrite Hparse; simpl; rewrite Hroom; simpl;
      rewrite Hparse'; simpl; rewrite Hmsg; simpl;
      by destruct err.
Qed.

(** X17. Cancelling does not deregister: after a run of [notifyClients],
    every connection registered under a room (none of whose registered
    connections is the nil pointer), the ones whose write just failed
    included, is still written to, once, by the next run for that room.
    Only the session's own deregistration ends the writes. *)
Theorem cancelled_connection_still_written (msg msg' : schema.Message.t) (w : World)
    (conn : option positive) (cancel : positive) :
  cancel_of (subscribers w) (schema.Message.RoomID msg') None = None ->
  cancel_of (subscribers w) (schema.Message.RoomID msg') conn = Some cancel ->
  attempts conn (effects (notifyClients msg') (after (notifyClients msg) w))
  = [(Json.to_json msg', wire w conn)].
Proof.
  intros Hnil Hreg.
  assert (subscribers (after (notifyClients msg) w) = subscribers w
          /\ wire (after (notifyClients msg) w) = wire w) as [Hsubs Hwire].
  { unfold after. by rewrite notifyClients_run. }
  rewrite (notifyClients_attempts msg' _ conn cancel) by by rewrite Hsubs.
  by rewrite Hwire.
Qed.

End Missing.

(** ** The further properties at work on the in-memory collaborators *)

Section InMemoryMore.
Import mem.

(** X2, on connection 1 joining and leaving the empty registry. *)
Lemma session_round_trip_witness :
  let subs : gmap string (gmap (option positive) positive) := ∅ in
  deregister (register subs "R" (Some 1%positive) 7%positive) "R" (Some 1%positive)
  = ensure_room subs "R"
  /\ is_Some (ensure_room subs "R" !! "R")
  /\ forall roomID',
       default ∅ (ensure_room subs "R" !! roomID') = default ∅ (subs !! roomID').
Proof.
  intros subs. apply (session_round_trip subs "R" (Some 1%positive) 7%positive).
  reflexivity.
Defined.

(** X4, on [world2]: the run cancels context 8, of the broken subscriber,
    and a context cancelled after the run is one the run had a reason to
    cancel. *)
Lemma notifyClients_cancels_exactly_witness :
  8%positive ∈ cancelled (after (notifyClients (created_m1 "R")) world2)
  /\ (7%positive ∈ cancelled (after (notifyClients (created_m1 "R")) world2) ->
      7%positive ∈ cancelled world2
      \/ exists conn err,
           cancel_of (subscribers world2) "R" conn = Some 7%positive
           /\ wire world2 conn = Some err).
Proof.
  split.
  - apply (proj2 (@notifyClients_cancels_exactly env (created_m1 "R") world2 8%positive)).
    + reflexivity.
    + right. exists (Some 2%positive), (ErrOther "broken pipe"). split; reflexivity.
  - exact (proj1 (@notifyClients_cancels_exactly env (created_m1 "R") world2 7%positive)).
Defined.

(** X5, on the healthy and on the broken subscriber of [world2]. *)
Lemma notifyClients_writes_once_witness :
  (attempts (Some 1%positive) (effects (notifyClients (created_m1 "R")) world2)
   = [(frame_m1, None)]
   /\ received (Some 1%positive) (effects (notifyClients (created_m1 "R")) world2)
      = [frame_m1])
  /\ (attempts (Some 2%positive) (effects (notifyClients (created_m1 "R")) world2)
      = [(frame_m1, Some (ErrOther "broken pipe"))]
      /\ received (Some 2%positive) (effects (notifyClients (created_m1 "R")) world2) = []).
Proof.
  split.
  - exact (@notifyClients_writes_once env (created_m1 "R") world2
             (Some 1%positive) 7%positive eq_refl eq_refl).
  - exact (@notifyClients_writes_once env (created_m1 "R") world2
             (Some 2%positive) 8%positive eq_refl eq_refl).
Defined.


(** X7, on a handshake for a room that does not exist. *)
Lemma handleSubscribe_rejected_witness :
  flow (handleSubscribe subscribe_nowhere) world0 = Next Finished
  /\ after (handleSubscribe subscribe_nowhere) world0 = world0
  /\ Forall handler_effect (effects (handleSubscribe subscribe_nowhere) world0)
  /\ exists status body,
       responses (effects (handleSubscribe subscribe_nowhere) world0) = [(status, body)]
       /\ (status = StatusBadRequest \/ status = StatusNotFound
           \/ status = StatusInternalServerError).
Proof.
  apply (@handleSubscribe_rejected env subscribe_nowhere world0).
  right. exists (schema.GetRoomByIDInput.mk "nowhere"), "nowhere", ErrNoRows.
  repeat split.
Defined.

Example handleSubscribe_nowhere :
  effects (handleSubscribe subscribe_nowhere) world0
  = [EPureJSON 404 (Json.Str "room not found")].
Proof. vm_compute. reflexivity. Qed.


(** X10, on a room that does not exist, on a message that does not exist,
    and on the room queries of a database that cannot be reached. *)
Lemma error_answers_are_fixed_witness :
  effects (handleGetRoom subscribe_nowhere) world0
  = [EPureJSON StatusNotFound (Json.Str "room not found")]
  /\ effects (handleReactToMessage write_m1) world0
     = [EPureJSON StatusNotFound (Json.Str "message not found")]
  /\ effects (@handleGetRooms env down_queries create_golang) world0
     = [ESlog LevelError "failed to get rooms" [("error", "connection refused")];
        EPureJSON StatusInternalServerError (Json.Str "something went wrong")]
  /\ effects (@handleCreateRoom env down_queries create_golang) world0
     = [ESlog LevelError "failed to insert room" [("error", "connection refused")];
        EPureJSON StatusInternalServerError (Json.Str "something went wrong")].
Proof.
  destruct (@error_answers_are_fixed env room_queries subscribe_nowhere world0)
    as (_ & _ & _ & Hroom & _).
  destruct (@error_answers_are_fixed env room_queries write_m1 world0)
    as (_ & _ & _ & _ & Hmessage).
  destruct (@error_answers_are_fixed env down_queries create_golang world0)
    as (_ & Hinsert & Hlist & _).
  split; [|split; [|split]].
  - destruct (Hroom (schema.GetRoomByIDInput.mk "nowhere") "nowhere" eq_refl eq_refl)
      as [Hmissing _].
    exact (Forall_inv (Hmissing ErrNoRows eq_refl)).
  - destruct (Hmessage (schema.GetMessageByIDInput.mk "R" "m1") "R" eq_refl eq_refl)
      as [_ Hfound].
    destruct (Hfound "R" "m1" eq_refl eq_refl) as [Hmissing _].
    exact (Forall_inv (Forall_inv_tail (Hmissing ErrNoRows eq_refl))).
  - exact (Hlist unreachable eq_refl).
  - exact (Hinsert (schema.CreateRoomInput.mk "golang") unreachable store0 eq_refl eq_refl).
Defined.

(** X12, on creating the room [golang] and on reading room [R]. *)
Lemma room_endpoints_witness :
  effects (handleCreateRoom create_golang) world0
  = [EPureJSON StatusCreated (Json.Object [("id", Json.Str "golang")])]
  /\ effects (handleGetRooms create_golang) world0
     = [EPureJSON StatusOK
          (Json.Array [Json.Object [("id", Json.Str "R"); ("theme", Json.Str "R")]])]
  /\ effects (handleGetRoom get_m1) world0
     = [EPureJSON StatusOK (Json.Object [("id", Json.Str "R"); ("theme", Json.Str "R")])].
Proof.
  destruct (@room_endpoints env room_queries create_golang world0) as (Hcreate & Hlist & _).
  destruct (@room_endpoints env room_queries get_m1 world0) as (_ & _ & Hget).
  split; [|split].
  - exact (f_equal snd (Hcreate (schema.CreateRoomInput.mk "golang") "golang" _
                                eq_refl eq_refl)).
  - exact (f_equal snd (Hlist ["R"] eq_refl)).
  - exact (f_equal snd (Hget (schema.GetRoomByIDInput.mk "R") "R" "R"
                             eq_refl eq_refl eq_refl)).
Defined.

(** X13, on a reaction to message [m1], which has two reactions. *)
Lemma reaction_requests_witness :
  effects (handleReactToMessage get_m1) world_m1
  = [EGo (reaction_event KindMessageReactionIncreased "R" "m1" 3);
     EPureJSON StatusOK (Json.Object [("count", Json.Number 3)])]
  /\ effects (handleRemoveReactionFromMessage get_m1) world_m1
     = [EGo (reaction_event KindMessageReactionDecreased "R" "m1" 1);
        EPureJSON StatusOK (Json.Object [("count", Json.Number 1)])].
Proof.
  destruct (@reaction_requests env get_m1 world_m1
              (schema.GetMessageByIDInput.mk "R" "m1") "R" "m1" "R"
              (pgstore.mkMessage "m1" "R" "hi" 2 false)
              eq_refl eq_refl eq_refl eq_refl eq_refl)
    as [Hup Hdown].
  split.
  - exact (f_equal snd (Hup 3 _ eq_refl)).
  - exact (f_equal snd (Hdown 1 _ eq_refl)).
Defined.

(** X14, on marking message [m1] as answered. *)
Lemma answered_requests_witness :
  effects (handleMarkMessageAsAnswered get_m1) world_m1
  = [EGo (schema.Message.mk KindMessageAnswered
            (schema.Any (schema.MessageAnsweredEvent.mk "m1")) "R");
     EPureJSON StatusOK Json.Null].
Proof.
  destruct (@answered_requests env get_m1 world_m1
              (schema.GetMessageByIDInput.mk "R" "m1") "R" "m1" "R"
              (pgstore.mkMessage "m1" "R" "hi" 2 false)
              eq_refl eq_refl eq_refl eq_refl eq_refl)
    as (_ & Hok & _).
  exact (f_equal snd (Hok _ eq_refl)).
Defined.

(** X15, on a subscriber of [R] and the text [hello] posted to [R]. *)
Lemma posted_message_reaches_subscriber_witness :
  exists msg,
    published (effects (handleCreateRoomMessage post_hello)
                       (after (handleSubscribe subscribe_R) world0)) = [msg]
    /\ received (Some 5%positive)
         (effects (notifyClients msg)
            (after (handleCreateRoomMessage post_hello)
                   (after (handleSubscribe subscribe_R) world0)))
       = [Json.Object
            [("kind", Json.Str "message_created");
             ("value", Json.Object [("ID", Json.Str "m1"); ("Message", Json.Str "hello")])]].
Proof.
  exact (@posted_message_reaches_subscriber env subscribe_R post_hello world0
           (schema.GetRoomByIDInput.mk "R") (schema.GetRoomByIDInput.mk "R") "R" "R"
           5%positive (schema.CreateMessageInput.mk "hello") "m1" _
           eq_refl eq_refl eq_refl eq_refl eq_refl eq_refl eq_refl eq_refl eq_refl
           eq_refl).
Defined.

Example reaction_frame_text :
  Json.marshal true
    (Json.to_json (@reaction_event env KindMessageReactionIncreased "R" "m1" 3))
  = Json.text "{'kind':'message_reaction_increased','value':{'ID':'m1','Count':3}}".
Proof. vm_compute. reflexivity. Qed.

(** X16, on a post to a room that does not exist. *)
Lemma missing_row_changes_nothing_witness :
  handleCreateRoomMessage subscribe_nowhere world1
  = (Next tt, world1, [EPureJSON StatusNotFound (Json.Str "room not found")]).
Proof.
  exact (proj1 (@missing_row_changes_nothing env subscribe_nowhere world1)
               (schema.GetRoomByIDInput.mk "nowhere") "nowhere" ErrNoRows
               eq_refl eq_refl eq_refl).
Defined.

(** X17, on the broken subscriber of [world2], written to again. *)
Lemma cancelled_connection_still_written_witness :
  attempts (Some 2%positive)
    (effects (notifyClients (created_m1 "R"))
             (after (notifyClients (created_m1 "R")) world2))
  = [(frame_m1, Some (ErrOther "broken pipe"))].
Proof.
  exact (@cancelled_connection_still_written env (created_m1 "R") (created_m1 "R") world2
           (Some 2%positive) 8%positive eq_refl eq_refl).
Defined.

End InMemoryMore.
